(** * Calendar booking agent: the decide/execute loop of [backend/agent.py]
      and the calendar tools of [backend/tools.py].

    The Python code is embedded shallowly.  Exceptions are explicit
    ([outcome]), the external collaborators (the LLM, LangGraph's
    [ToolExecutor], [json.dumps], the Google Calendar client, [datetime])
    are section variables, dictionaries whose key presence matters are
    [gmap]s, and the LangGraph workflow is a step function over the
    pair (next node, graph state). *)

From Stdlib Require Import String Ascii List Arith Lia.
From stdpp Require Import base option list strings gmap.
Import ListNotations.

Local Open Scope string_scope.
Local Open Scope list_scope.

(** ** Python exceptions as values *)

Inductive exn : Type :=
| HttpError (text : string)          (* [text] is str(error) *)
| IndexError                         (* list index out of range *)
| KeyError (key : string)
| ValueError (text : string)
| OtherError (name text : string).   (* any other exception class *)

Inductive outcome (A : Type) : Type :=
| Return (a : A)
| Raise (e : exn).
Arguments Return {A} a.
Arguments Raise {A} e.

#[export] Instance outcome_ret : MRet outcome := fun A a => Return a.
#[export] Instance outcome_bind : MBind outcome := fun A B f m =>
  match m with
  | Return a => f a
  | Raise e => Raise e
  end.

Definition returns {A} (m : outcome A) : bool :=
  match m with Return _ => true | Raise _ => false end.

(** ** Python string helpers *)

(** [str.lower()] on the ASCII letters.  (Python also lowers non-ASCII
    letters; none of them lowers to an ASCII ['f'], ['r'] or ['e'], the only
    characters the caller looks for.) *)
Definition lower_ascii (c : ascii) : ascii :=
  let n := nat_of_ascii c in
  if Nat.leb 65 n && Nat.leb n 90 then ascii_of_nat (n + 32) else c.

Fixpoint lower (s : string) : string :=
  match s with
  | EmptyString => EmptyString
  | String c s' => String (lower_ascii c) (lower s')
  end.

(** [needle in haystack] for Python strings. *)
Fixpoint contains (needle haystack : string) : bool :=
  String.prefix needle haystack ||
  match haystack with
  | EmptyString => false
  | String _ rest => contains needle rest
  end.

(** [sep.join(parts)] *)
Definition join (sep : string) (parts : list string) : string :=
  String.concat sep parts.

(** [str(x)] for an optional string: [None] prints as ["None"]. *)
Definition str_opt (o : option string) : string :=
  match o with Some s => s | None => "None" end.

(** ** [backend/tools.py] *)

Module Tools.

Record busy_slot := { slot_start : string; slot_end : string }.

(** body of the freebusy query *)
Record freebusy_body := {
  timeMin : string;
  timeMax : string;
  timeZone : string;
  items : list string            (* the ids of [{"id": calendar_id}] *)
}.

Record event_time := { dateTime : string; ev_timeZone : string }.
Record reminder := { method : string; minutes : nat }.

Record event_body := {
  ev_summary : string;
  ev_description : string;
  ev_start : event_time;
  ev_end : event_time;
  ev_useDefault : bool;
  ev_overrides : list reminder;
  ev_attendees : option (list string)   (* key 'attendees', the emails *)
}.

(** The authenticated calendar client returned by [get_calendar_service()].
    Each field is one [...execute()] round trip.
    - [calendars_get id] is
      [service.calendars().get(calendarId=id).execute()], the calendar's
      info dict;
    - [freebusy_query b] is [service.freebusy().query(body=b).execute()],
      read as the map  calendar id |-> response['calendars'][id]['busy'];
    - [events_insert id e] is
      [service.events().insert(calendarId=id, body=e).execute()], the
      created event dict. *)
Record calendar_service := {
  calendars_get : string -> outcome (gmap string string);
  freebusy_query : freebusy_body -> outcome (gmap string (list busy_slot));
  events_insert : string -> event_body -> outcome (gmap string string)
}.

Section WithCalendar.

(** [get_calendar_service()]: credentials handling plus [build(...)]. *)
Variable get_calendar_service : outcome calendar_service.

(** [datetime.datetime] *)
Variable datetime : Type.
Variable fromisoformat : string -> outcome datetime.
Variable isoformat : datetime -> string.

(** [dict[key]], raising [KeyError] *)
Definition getitem {V} (d : gmap string V) (key : string) : outcome V :=
  match d !! key with
  | Some v => Return v
  | None => Raise (KeyError key)
  end.

Definition busy_text (slot : busy_slot) : string :=
  "From " +:+ slot_start slot +:+ " to " +:+ slot_end slot.

(** the [try] block of [check_calendar_availability] *)
Definition check_calendar_availability_try (start_time end_time : string)
  : outcome string :=
  service ← get_calendar_service;
  let calendar_id := "primary" in
  calendar_info ← calendars_get service calendar_id;
  let timezone := default "UTC" (calendar_info !! "timeZone") in
  start ← fromisoformat start_time;
  end_ ← fromisoformat end_time;
  let body := {| timeMin := isoformat start;
                 timeMax := isoformat end_;
                 timeZone := timezone;
                 items := [calendar_id] |} in
  free_busy_query ← freebusy_query service body;
  busy_slots ← getitem free_busy_query calendar_id;
  match busy_slots with
  | [] => Return "The calendar is free during this time."
  | _ =>
      let busy_list := map busy_text busy_slots in
      Return ("The calendar is busy during the following times: "
              +:+ join ", " busy_list
              +:+ ". Please suggest a different time.")
  end.

(** [except HttpError as error: return f"...{error}"]; every other
    exception class passes through the handler. *)
Definition except_HttpError (prefix : string) (m : outcome string)
  : outcome string :=
  match m with
  | Raise (HttpError text) => Return (prefix +:+ text)
  | _ => m
  end.

Definition check_calendar_availability (start_time end_time : string)
  : outcome string :=
  except_HttpError "An error occurred while checking availability: "
    (check_calendar_availability_try start_time end_time).

Definition truthy_list {A} (o : option (list A)) : bool :=
  match o with
  | Some (_ :: _) => true
  | _ => false
  end.

(** the [event = {...}] literal, with the ['attendees'] key added
    [if attendees:] *)
Definition new_event (summary start_time end_time description : string)
    (attendees : option (list string)) : event_body :=
  {| ev_summary := summary;
     ev_description := description;
     ev_start := {| dateTime := start_time; ev_timeZone := "Asia/Kolkata" |};
     ev_end := {| dateTime := end_time; ev_timeZone := "Asia/Kolkata" |};
     ev_useDefault := false;
     ev_overrides := [ {| method := "email"; minutes := 24 * 60 |};
                       {| method := "popup"; minutes := 10 |} ];
     ev_attendees := if truthy_list attendees then attendees else None |}.

Definition create_google_calendar_event_try
    (summary start_time end_time description : string)
    (attendees : option (list string)) : outcome string :=
  service ← get_calendar_service;
  let event := new_event summary start_time end_time description attendees in
  event ← events_insert service "primary" event;
  Return ("Event created: " +:+ str_opt (event !! "htmlLink")).

Definition create_google_calendar_event
    (summary start_time end_time description : string)
    (attendees : option (list string)) : outcome string :=
  except_HttpError "An error occurred while creating the event: "
    (create_google_calendar_event_try summary start_time end_time
       description attendees).

End WithCalendar.

Arguments check_calendar_availability_try _ {datetime} _ _ _ _.
Arguments check_calendar_availability _ {datetime} _ _ _ _.

End Tools.

(** ** [backend/agent.py] *)

Module Agent.

(** One entry of [additional_kwargs["tool_calls"]]:
    [{"id": ..., "function": {"name": ..., "arguments": ...}}]. *)
Record tool_call := {
  tc_id : string;
  tc_name : string;          (* tool_call['function']['name'] *)
  tc_arguments : string      (* tool_call['function']['arguments'], JSON text *)
}.

Inductive message_type := human | ai | tool.

(** [BaseMessage].  Of [additional_kwargs] the code reads the key
    ["tool_calls"] only: whether it is present, and the list under it. *)
Record message := {
  msg_type : message_type;
  content : string;
  additional_kwargs : gmap string (list tool_call);
  tool_call_id : option string
}.

Definition HumanMessage (text : string) : message :=
  {| msg_type := human; content := text;
     additional_kwargs := ∅; tool_call_id := None |}.

Definition AIMessage (text : string) (kwargs : gmap string (list tool_call))
  : message :=
  {| msg_type := ai; content := text;
     additional_kwargs := kwargs; tool_call_id := None |}.

Definition ToolMessage (id text : string) : message :=
  {| msg_type := tool; content := text;
     additional_kwargs := ∅; tool_call_id := Some id |}.

(** [class AgentState(TypedDict)] *)
Record AgentState := {
  messages : list message;
  summary : option string;
  start_time : option string;
  end_time : option string;
  attendees : option (list string);
  calendar_check_result : option string;
  action_needed : option string
}.

Definition set_calendar_check_result (v : option string) (s : AgentState)
  : AgentState :=
  {| messages := messages s; summary := summary s;
     start_time := start_time s; end_time := end_time s;
     attendees := attendees s;
     calendar_check_result := v;
     action_needed := action_needed s |}.

Definition set_action_needed (v : option string) (s : AgentState)
  : AgentState :=
  {| messages := messages s; summary := summary s;
     start_time := start_time s; end_time := end_time s;
     attendees := attendees s;
     calendar_check_result := calendar_check_result s;
     action_needed := v |}.

(** The dict a node returns: a key of the graph state is either absent
    ([None]) or carries the value to write. *)
Record StateUpdate := {
  upd_messages : option (list message);
  upd_summary : option (option string);
  upd_start_time : option (option string);
  upd_end_time : option (option string);
  upd_attendees : option (option (list string));
  upd_calendar_check_result : option (option string);
  upd_action_needed : option (option string)
}.

(** How the graph folds a node's update into the persisted state:
    [messages] is declared [Annotated[list, operator.add]], so the update
    is concatenated to the old list; every other key is overwritten when
    the update has it and kept otherwise.  The dict handed to a node is
    the node's own copy: what the node assigns to it reaches the persisted
    state through the returned update only. *)
Definition apply_update (s : AgentState) (u : StateUpdate) : AgentState :=
  {| messages := match upd_messages u with
                 | Some new => messages s ++ new
                 | None => messages s
                 end;
     summary := default (summary s) (upd_summary u);
     start_time := default (start_time s) (upd_start_time u);
     end_time := default (end_time s) (upd_end_time u);
     attendees := default (attendees s) (upd_attendees u);
     calendar_check_result :=
       default (calendar_check_result s) (upd_calendar_check_result u);
     action_needed := default (action_needed s) (upd_action_needed u) |}.

(** [tools = [check_availability, book_meeting, get_current_datetime]],
    by name.  The first two forward their arguments to
    [Tools.check_calendar_availability] and
    [Tools.create_google_calendar_event]; the graph reaches all three
    through the tool executor only. *)
Definition tools : list string :=
  ["check_availability"; "book_meeting"; "get_current_datetime"].

(** [state['messages'][-1]] *)
Definition last_message_of (s : AgentState) : outcome message :=
  match last (messages s) with
  | Some m => Return m
  | None => Raise IndexError
  end.

(** [last_message.additional_kwargs.get("tool_calls", [])] *)
Definition requested_actions (m : message) : list tool_call :=
  default [] (additional_kwargs m !! "tool_calls").

Definition should_continue (state : AgentState) : outcome string :=
  last_message ← last_message_of state;
  if decide (is_Some (additional_kwargs last_message !! "tool_calls"))
  then Return "continue"
  else Return "end".

(** The reply of the chat model, always an [AIMessage]. *)
Record ai_reply := {
  reply_content : string;
  reply_kwargs : gmap string (list tool_call)
}.

Definition response_of (r : ai_reply) : message :=
  AIMessage (reply_content r) (reply_kwargs r).

Section WithCollaborators.

(** [llm.bind_tools(tools).invoke(messages)] *)
Variable llm_invoke : list message -> outcome ai_reply.

(** [tool_executor.invoke(...)], called with the one-element list
    [[tool_call]]. *)
Variable tool_executor_invoke : list tool_call -> outcome string.

(** [json.dumps] on a tool result *)
Variable json_dumps : string -> string.

Definition call_model (state : AgentState) : outcome StateUpdate :=
  let messages := messages state in
  response ← llm_invoke messages;
  Return {| upd_messages := Some [response_of response];
            upd_summary := None; upd_start_time := None;
            upd_end_time := None; upd_attendees := None;
            upd_calendar_check_result := None;
            upd_action_needed := None |}.

(** The "Update state based on tool output" block, on the node's copy
    of the state. *)
Definition fold_tool_output (tool_name result : string) (state : AgentState)
  : AgentState :=
  if decide (tool_name = "check_availability") then
    let state := set_calendar_check_result (Some result) state in
    set_action_needed
      (Some (if contains "free" (lower result)
             then "propose_slots" else "ask_for_new_time")) state
  else if decide (tool_name = "book_meeting") then
    set_action_needed (Some "confirm_booking") state
  else state.

(** The [for tool_call in tool_calls] loop; the accumulator is the
    node's copy of the state and the [outputs] list. *)
Fixpoint call_tool_loop (tool_calls : list tool_call)
    (state : AgentState) (outputs : list message)
  : outcome (AgentState * list message) :=
  match tool_calls with
  | [] => Return (state, outputs)
  | tool_call :: rest =>
      let tool_name := tc_name tool_call in
      result ← tool_executor_invoke [tool_call];
      let outputs :=
        outputs ++ [ToolMessage (tc_id tool_call) (json_dumps result)] in
      let state := fold_tool_output tool_name result state in
      call_tool_loop rest state outputs
  end.

Definition call_tool (state : AgentState) : outcome StateUpdate :=
  last_message ← last_message_of state;
  let tool_calls := requested_actions last_message in
  '(state, outputs) ← call_tool_loop tool_calls state [];
  Return {| upd_messages := Some outputs;
            upd_summary := None; upd_start_time := None;
            upd_end_time := None; upd_attendees := None;
            upd_calendar_check_result := None;
            upd_action_needed := Some (action_needed state) |}.

(** *** The workflow graph *)

Inductive node := N_call_model | N_call_tool | N_END.

(** [workflow.add_edge(START, "call_model")] *)
Definition entry_point : node := N_call_model.

(** [{"continue": "call_tool", "end": END}] *)
Definition conditional_edge (label : string) : outcome node :=
  if decide (label = "continue") then Return N_call_tool
  else if decide (label = "end") then Return N_END
  else Raise (KeyError label).

(** One node execution followed by the edge out of it. *)
Definition step (n : node) (state : AgentState)
  : outcome (node * AgentState) :=
  match n with
  | N_call_model =>
      u ← call_model state;
      let state := apply_update state u in
      label ← should_continue state;
      next ← conditional_edge label;
      Return (next, state)
  | N_call_tool =>
      u ← call_tool state;
      (* workflow.add_edge("call_tool", "call_model") *)
      Return (N_call_model, apply_update state u)
  | N_END => Return (N_END, state)
  end.

Inductive run_result :=
| Halted (final : AgentState) (trace : list node)
| Crashed (e : exn) (trace : list node)
| OutOfFuel (state : AgentState) (next : node) (trace : list node).

(** Runs the graph from node [n]; [trace] lists the nodes executed so
    far, [fuel] bounds the number of node executions. *)
Fixpoint run_from (fuel : nat) (n : node) (state : AgentState)
    (trace : list node) : run_result :=
  match n with
  | N_END => Halted state trace
  | _ =>
      match fuel with
      | 0 => OutOfFuel state n trace
      | S fuel' =>
          match step n state with
          | Raise e => Crashed e (trace ++ [n])
          | Return (n', state') => run_from fuel' n' state' (trace ++ [n])
          end
      end
  end.

(** [app.invoke(inputs)] *)
Definition invoke (fuel : nat) (inputs : AgentState) : run_result :=
  run_from fuel entry_point inputs [].

Definition trace_of (r : run_result) : list node :=
  match r with
  | Halted _ t | Crashed _ t | OutOfFuel _ _ t => t
  end.

Definition is_call_model (n : node) : bool :=
  match n with N_call_model => true | _ => false end.

(** number of Decision Node invocations in a trace *)
Definition decisions (trace : list node) : nat :=
  length (filter (fun n => is_call_model n = true) trace).

End WithCollaborators.

End Agent.

(** ** Shapes of transcripts and traces *)

Module Transcript.
Import Agent.

(** [m] is the result message of request [tc]: a tool message carrying
    the request's id. *)
Definition answers (tc : tool_call) (m : message) : Prop :=
  msg_type m = tool ∧ tool_call_id m = Some (tc_id tc).

(** What one run of the graph appends to [messages]: rounds made of an
    assistant message that has the ["tool_calls"] key followed by one
    result per listed call, closed by an assistant message without the
    key. *)
Inductive turn_transcript : list message → Prop :=
| transcript_reply m :
    msg_type m = ai →
    additional_kwargs m !! "tool_calls" = None →
    turn_transcript [m]
| transcript_round m calls results rest :
    msg_type m = ai →
    additional_kwargs m !! "tool_calls" = Some calls →
    Forall2 answers calls results →
    turn_transcript rest →
    turn_transcript (m :: results ++ rest).

(** [m] is the result message the execution node builds for [tc]. *)
Definition produced (tool_executor_invoke : list tool_call → outcome string)
    (json_dumps : string → string) (tc : tool_call) (m : message) : Prop :=
  ∃ result,
    tool_executor_invoke [tc] = Return result ∧
    m = ToolMessage (tc_id tc) (json_dumps result).

(** the update [{"messages": new}] and its effect on a state *)
Definition only_messages (new : list message) : StateUpdate :=
  {| upd_messages := Some new; upd_summary := None; upd_start_time := None;
     upd_end_time := None; upd_attendees := None;
     upd_calendar_check_result := None; upd_action_needed := None |}.

Definition append_messages (s : AgentState) (new : list message)
  : AgentState :=
  apply_update s (only_messages new).

(** the update [{"messages": new, "action_needed": flag}] *)
Definition messages_and_flag (new : list message) (flag : option string)
  : StateUpdate :=
  {| upd_messages := Some new; upd_summary := None; upd_start_time := None;
     upd_end_time := None; upd_attendees := None;
     upd_calendar_check_result := None; upd_action_needed := Some flag |}.

Definition halted (r : run_result) : bool :=
  match r with Halted _ _ => true | _ => false end.

Definition final_messages (r : run_result) : option (list message) :=
  match r with Halted s _ => Some (messages s) | _ => None end.

Definition next_node (o : outcome (node * AgentState)) : option node :=
  match o with Return (n, _) => Some n | Raise _ => None end.

Definition other_node (n : node) : node :=
  match n with
  | N_call_model => N_call_tool
  | N_call_tool => N_call_model
  | N_END => N_END
  end.

Definition node_eqb (a b : node) : bool :=
  match a, b with
  | N_call_model, N_call_model
  | N_call_tool, N_call_tool
  | N_END, N_END => true
  | _, _ => false
  end.

(** [trace] is [expected], then the other node, then [expected] again... *)
Fixpoint alternates (expected : node) (trace : list node) : bool :=
  match trace with
  | [] => true
  | n :: trace' =>
      negb (node_eqb n N_END) && node_eqb n expected
      && alternates (other_node expected) trace'
  end.

End Transcript.

(** ** The calendar collaborator raising inside a tool *)

Module Failure.
Import Tools.

Section WithCalendar.
Variable get_calendar_service : outcome calendar_service.
Variable datetime : Type.
Variable fromisoformat : string -> outcome datetime.
Variable isoformat : datetime -> string.

(** One of the calendar calls made by [check_calendar_availability]
    raises [e] (and the calls before it returned). *)
Definition check_collaborator_raises (start_time end_time : string)
    (e : exn) : Prop :=
  get_calendar_service = Raise e ∨
  ∃ service,
    get_calendar_service = Return service ∧
    (calendars_get service "primary" = Raise e ∨
     ∃ info start end_,
       calendars_get service "primary" = Return info ∧
       fromisoformat start_time = Return start ∧
       fromisoformat end_time = Return end_ ∧
       freebusy_query service
         {| timeMin := isoformat start; timeMax := isoformat end_;
            timeZone := default "UTC" (info !! "timeZone");
            items := ["primary"] |} = Raise e).

(** One of the calendar calls made by [create_google_calendar_event]
    raises [e]. *)
Definition create_collaborator_raises
    (summary start_time end_time description : string)
    (attendees : option (list string)) (e : exn) : Prop :=
  get_calendar_service = Raise e ∨
  ∃ service,
    get_calendar_service = Return service ∧
    events_insert service "primary"
      (new_event summary start_time end_time description attendees)
    = Raise e.

End WithCalendar.

Arguments check_collaborator_raises _ {datetime} _ _ _ _ _.

End Failure.

(** ** Concrete collaborators and inputs *)

Module Samples.
Import Tools Agent.

Definition quote : string := String (ascii_of_nat 34) EmptyString.

(** [json.dumps] restricted to strings none of whose characters needs an
    escape: the text between double quotes. *)
Definition dumps_plain (s : string) : string := quote +:+ s +:+ quote.

(** the first [inputs] of the module's [__main__] block *)
Definition first_turn : AgentState :=
  {| messages :=
       [HumanMessage "Hey, I want to schedule a call for tomorrow morning."];
     summary := None; start_time := None; end_time := None;
     attendees := None; calendar_check_result := None;
     action_needed := None |}.

Definition tc_check : tool_call :=
  {| tc_id := "call_1"; tc_name := "check_availability";
     tc_arguments := "{}" |}.

Definition tc_now : tool_call :=
  {| tc_id := "call_2"; tc_name := "get_current_datetime";
     tc_arguments := "{}" |}.

Definition tc_delete : tool_call :=
  {| tc_id := "call_3"; tc_name := "delete_event";
     tc_arguments := "{}" |}.

Definition wants (calls : list tool_call) : ai_reply :=
  {| reply_content := ""; reply_kwargs := {[ "tool_calls" := calls ]} |}.

Definition says (text : string) : ai_reply :=
  {| reply_content := text; reply_kwargs := ∅ |}.

(** An oracle that, on a one-message transcript, asks for [calls] and
    afterwards answers in plain text. *)
Definition llm_once (calls : list tool_call) (transcript : list message)
  : outcome ai_reply :=
  if Nat.eqb (length transcript) 1 then Return (wants calls)
  else Return (says "Yes, you're free then!").

(** An oracle whose every reply has the ["tool_calls"] key with an empty
    list under it. *)
Definition llm_always_empty_calls (transcript : list message)
  : outcome ai_reply :=
  Return (wants []).

(** A tool executor that answers every call with the "free" text. *)
Definition exec_free (calls : list tool_call) : outcome string :=
  Return "The calendar is free during this time.".

(** A tool executor that reports a name outside [tools] as a text. *)
Definition exec_lenient (calls : list tool_call) : outcome string :=
  match calls with
  | [tc] =>
      if decide (tc_name tc ∈ tools) then Return "2025-06-28T09:00:00"
      else Return (tc_name tc +:+ " is not a valid tool")
  | _ => Raise (ValueError "one tool call expected")
  end.

(** A tool executor that looks the name up in [tools] and raises when it
    is absent. *)
Definition exec_strict (calls : list tool_call) : outcome string :=
  match calls with
  | [tc] =>
      if decide (tc_name tc ∈ tools) then Return "2025-06-28T09:00:00"
      else Raise (KeyError (tc_name tc))
  | _ => Raise (ValueError "one tool call expected")
  end.

(** [fromisoformat]/[isoformat] on timestamps kept as text; the empty
    string is rejected. *)
Definition fromisoformat_text (s : string) : outcome string :=
  if decide (s = "") then Raise (ValueError "Invalid isoformat string")
  else Return s.

Definition isoformat_text (s : string) : string := s.

Definition calendar_with (busy : outcome (gmap string (list busy_slot)))
  : calendar_service :=
  {| calendars_get := fun _ => Return {[ "timeZone" := "Asia/Kolkata" ]};
     freebusy_query := fun _ => busy;
     events_insert := fun _ _ =>
       Return {[ "htmlLink" := "https://calendar.example/event/1" ]} |}.

Definition svc_free : calendar_service :=
  calendar_with (Return {[ "primary" := [] ]}).

Definition svc_busy : calendar_service :=
  calendar_with
    (Return {[ "primary" :=
                 [ {| slot_start := "2025-06-29T10:00:00+05:30";
                      slot_end := "2025-06-29T10:30:00+05:30" |};
                   {| slot_start := "2025-06-29T10:45:00+05:30";
                      slot_end := "2025-06-29T11:00:00+05:30" |} ] ]}).

(** the free/busy query is refused by the server *)
Definition svc_forbidden : calendar_service :=
  calendar_with (Raise (HttpError "<HttpError 403 Forbidden>")).

(** the connection to the calendar server times out: not an [HttpError] *)
Definition svc_timeout : calendar_service :=
  {| calendars_get := fun _ => Raise (OtherError "TimeoutError" "timed out");
     freebusy_query := fun _ => Raise (OtherError "TimeoutError" "timed out");
     events_insert := fun _ _ =>
       Raise (OtherError "TimeoutError" "timed out") |}.

Definition free_text : string := "The calendar is free during this time.".

(** [first_turn] once the oracle has asked for [calls] *)
Definition asked (calls : list tool_call) : AgentState :=
  {| messages := messages first_turn ++ [response_of (wants calls)];
     summary := None; start_time := None; end_time := None;
     attendees := None; calendar_check_result := None;
     action_needed := None |}.

(** the state in which [llm_once [tc_check]] and [exec_free] leave
    [first_turn] *)
Definition checked_and_answered : AgentState :=
  {| messages :=
       messages first_turn
       ++ [response_of (wants [tc_check]);
           ToolMessage "call_1" (dumps_plain free_text);
           response_of (says "Yes, you're free then!")];
     summary := None; start_time := None; end_time := None;
     attendees := None; calendar_check_result := None;
     action_needed := Some "propose_slots" |}.

Definition t10 : string := "2025-06-29T10:00:00+05:30".
Definition t11 : string := "2025-06-29T11:00:00+05:30".

End Samples.

(** ** [backend/tools.py]: [get_calendar_service] *)

Module Auth.
Import Tools.

(** [google.oauth2.credentials.Credentials], as far as the code looks at
    it: the three attributes it tests and [to_json()]. *)
Record credentials := {
  valid : bool;
  expired : bool;
  refresh_token : option string;
  to_json : string
}.

(** What the function does outside its own variables. *)
Inductive auth_event :=
| ev_refresh                      (* creds.refresh(Request()) *)
| ev_consent_flow                 (* flow.run_local_server(port=0) *)
| ev_write (text : string).       (* token.write(...) *)

(** The file [token.json] ([None]: it does not exist) and the events so
    far, oldest first.  Opening the file for writing is taken to
    succeed. *)
Record world := {
  token_json : option string;
  events : list auth_event
}.

Definition record_event (e : auth_event) (w : world) : world :=
  {| token_json := token_json w; events := events w ++ [e] |}.

(** [with open('token.json', 'w') as token: token.write(text)] *)
Definition write_token (text : string) (w : world) : world :=
  {| token_json := Some text; events := events w ++ [ev_write text] |}.

(** truth value of an optional string: [None] and [""] are false *)
Definition truthy_str (o : option string) : bool :=
  match o with
  | Some (String _ _) => true
  | _ => false
  end.

Section WithGoogle.

(** [Credentials.from_authorized_user_file('token.json', SCOPES)], on the
    content of the file *)
Variable from_authorized_user_file : string → outcome credentials.

(** [creds.refresh(Request())]: the credentials after the in-place
    refresh *)
Variable refresh : credentials → outcome credentials.

(** [InstalledAppFlow.from_client_secrets_file('credentials.json',
    SCOPES).run_local_server(port=0)] *)
Variable run_local_server : outcome credentials.

(** [build('calendar', 'v3', credentials=creds)] *)
Variable build : credentials → outcome calendar_service.

(** [if os.path.exists('token.json'): creds = ...], from [creds = None] *)
Definition load_token (w : world) : outcome (option credentials) :=
  match token_json w with
  | Some text => creds ← from_authorized_user_file text; Return (Some creds)
  | None => Return None
  end.

(** The credentials when the test [not creds or not creds.valid] is
    false. *)
Definition usable (creds : option credentials) : option credentials :=
  match creds with
  | Some c => if valid c then Some c else None
  | None => None
  end.

(** [creds and creds.expired and creds.refresh_token] *)
Definition refreshable (creds : option credentials) : option credentials :=
  match creds with
  | Some c => if expired c && truthy_str (refresh_token c) then Some c else None
  | None => None
  end.

Definition get_calendar_service (w : world)
  : world * outcome calendar_service :=
  match load_token w with
  | Raise e => (w, Raise e)
  | Return creds =>
      match usable creds with
      | Some creds => (w, build creds)
      | None =>
          let '(w, fresh) :=
            match refreshable creds with
            | Some c => (record_event ev_refresh w, refresh c)
            | None => (record_event ev_consent_flow w, run_local_server)
            end in
          match fresh with
          | Raise e => (w, Raise e)
          | Return creds =>
              (* Save the credentials for the next run *)
              let w := write_token (to_json creds) w in
              (w, build creds)
          end
      end
  end.

(** [datetime.datetime] *)
Variable datetime : Type.
Variable fromisoformat : string → outcome datetime.
Variable isoformat : datetime → string.

(** The two tools with the calendar client obtained as the code obtains
    it, inside the [try]. *)
Definition check_calendar_availability (start_time end_time : string)
    (w : world) : world * outcome string :=
  let '(w, service) := get_calendar_service w in
  (w, Tools.check_calendar_availability service fromisoformat isoformat
        start_time end_time).

Definition create_google_calendar_event
    (summary start_time end_time description : string)
    (attendees : option (list string)) (w : world) : world * outcome string :=
  let '(w, service) := get_calendar_service w in
  (w, Tools.create_google_calendar_event service summary start_time end_time
        description attendees).

End WithGoogle.

Arguments check_calendar_availability _ _ _ _ {datetime} _ _ _ _ _.

End Auth.

(** ** The flag left by a batch of tool calls *)

Module Flag.
Import Agent.

(** whether [call_tool] writes [action_needed] for a tool of this name *)
Definition sets_flag (tool_name : string) : bool :=
  bool_decide (tool_name = "check_availability")
  || bool_decide (tool_name = "book_meeting").

(** the value [call_tool] writes for such a tool and its result *)
Definition flag_for (tool_name result : string) : string :=
  if decide (tool_name = "check_availability") then
    if contains "free" (lower result)
    then "propose_slots" else "ask_for_new_time"
  else "confirm_booking".

(** the task slots of two states agree *)
Definition same_slots (s s' : AgentState) : Prop :=
  summary s' = summary s ∧ start_time s' = start_time s ∧
  end_time s' = end_time s ∧ attendees s' = attendees s ∧
  calendar_check_result s' = calendar_check_result s.

(** the final state of a run that did not crash *)
Definition state_of (r : run_result) : option AgentState :=
  match r with
  | Halted s _ => Some s
  | OutOfFuel s _ _ => Some s
  | Crashed _ _ => None
  end.

Definition is_call_tool (n : node) : bool :=
  match n with N_call_tool => true | _ => false end.

(** number of Execution Node invocations in a trace *)
Definition executions (trace : list node) : nat :=
  length (filter (fun n => is_call_tool n = true) trace).

End Flag.

(** ** [backend/main.py]: the [/chat] endpoint *)

Module MainApi.
Import Agent.

(** [class ChatRequest(BaseModel)] *)
Record ChatRequest := { req_user_id : string; req_message : string }.

(** The [tool_calls] field of the response: the parsed calls of the
    message, the raw list under ["tool_calls"], or [None]. *)
Inductive tool_calls_field (parsed_call : Type) :=
| parsed_calls (calls : list parsed_call)
| raw_calls (calls : list tool_call)
| no_calls.
Arguments parsed_calls {parsed_call} calls.
Arguments raw_calls {parsed_call} calls.
Arguments no_calls {parsed_call}.

(** [class ChatResponse(BaseModel)] *)
Record ChatResponse (parsed_call : Type) := {
  response : string;
  thread_id : string;
  tool_calls : tool_calls_field parsed_call
}.
Arguments response {parsed_call} _.
Arguments thread_id {parsed_call} _.
Arguments tool_calls {parsed_call} _.

(** One event of [astream_events]: [event["event"]] and
    [event["data"]["output"]], a dict of state keys or [None].  Of the
    dict the code reads the key ["messages"] only. *)
Record stream_event := {
  event : string;
  data_output : option (gmap string (list message))
}.

(** what the endpoint gives back: the response model, or
    [HTTPException(status_code, detail)] *)
Inductive http_result (parsed_call : Type) :=
| Ok200 (body : ChatResponse parsed_call)
| HTTPException (status_code : nat) (detail : string).
Arguments Ok200 {parsed_call} body.
Arguments HTTPException {parsed_call} status_code detail.

(** [isinstance(msg, AIMessage)] *)
Definition is_ai (msg : message) : bool :=
  match msg_type msg with ai => true | _ => false end.

Section WithApp.

(** the type of the entries of [AIMessage.tool_calls] *)
Variable parsed_call : Type.

(** [msg.tool_calls], the calls the library parsed out of the message *)
Variable tool_calls_of : message → list parsed_call.

(** [langgraph_app.astream_events({"messages": [input_message]},
    config={"configurable": {"thread_id": thread_id}}, version="v2")], run
    to its end *)
Variable astream_events :
  list message → string → outcome (list stream_event).

(** [repr] of a string: the text between quotes, with the quote character
    Python chooses and its escapes *)
Variable repr : string → string.

(** [str(e)]; for a [KeyError] it is the [repr] of the key *)
Definition str_exn (e : exn) : string :=
  match e with
  | HttpError text => text
  | IndexError => "list index out of range"
  | KeyError key => repr key
  | ValueError text => text
  | OtherError _ text => text
  end.

(** the [async for] loop: the output of the last ["on_chain_end"] event *)
Definition last_chain_end (stream : list stream_event)
  : option (gmap string (list message)) :=
  fold_left
    (fun final_state ev =>
       if decide (event ev = "on_chain_end") then data_output ev
       else final_state)
    stream None.

(** [for msg in reversed(msgs): if isinstance(msg, AIMessage): ... break] *)
Definition first_ai (reversed_msgs : list message) : option message :=
  find is_ai reversed_msgs.

(** [final_state and final_state.get('messages')], then the scan *)
Definition ai_response_message
    (final_state : option (gmap string (list message))) : option message :=
  match final_state with
  | Some state =>
      match state !! "messages" with
      | Some (m :: msgs) => first_ai (rev (m :: msgs))
      | _ => None
      end
  | None => None
  end.

(** [msg.tool_calls or msg.additional_kwargs.get("tool_calls")] *)
Definition tool_calls_or_raw (msg : message) : tool_calls_field parsed_call :=
  match tool_calls_of msg with
  | c :: calls => parsed_calls (c :: calls)
  | [] =>
      match additional_kwargs msg !! "tool_calls" with
      | Some raw => raw_calls raw
      | None => no_calls
      end
  end.

(** the part of the [try] block after the stream has ended *)
Definition respond (thread : string)
    (final_state : option (gmap string (list message)))
  : ChatResponse parsed_call :=
  match ai_response_message final_state with
  | Some msg =>
      {| response := content msg;
         thread_id := thread;
         tool_calls := tool_calls_or_raw msg |}
  | None =>
      {| response :=
           "The agent did not return a direct message. This might be a tool call.";
         thread_id := thread;
         tool_calls := no_calls |}
  end.

Definition chat_endpoint (request : ChatRequest) : http_result parsed_call :=
  let user_id := req_user_id request in
  let message := req_message request in
  let thread := user_id in
  let input_message := HumanMessage message in
  match astream_events [input_message] thread with
  | Return stream => Ok200 (respond thread (last_chain_end stream))
  | Raise e => HTTPException 500 (str_exn e)
  end.

End WithApp.

End MainApi.

(** ** [frontend/app.py]: one run of the Streamlit script *)

Module Frontend.

(** an entry of [st.session_state.messages] *)
Record chat_entry := { role : string; entry_content : string }.

(** [st.session_state], by key: [None] for a key that is not there.  The
    value under ["thread_id"] may itself be [None]. *)
Record session_state := {
  user_id : option string;
  messages : option (list chat_entry);
  thread_id : option (option string)
}.

(** what the page shows, in order *)
Inductive ui_event :=
| chat_message (role content : string)   (* st.markdown(content) *)
| error (text : string).                 (* st.error(text) *)

(** how the run of the script ends *)
Inductive script_end :=
| finished
| stopped                        (* st.stop() *)
| uncaught (e : exn).

(** the JSON body sent to the backend *)
Record payload := { p_user_id : string; p_message : string }.

(** the object [requests.post] returns; of the JSON body the script reads
    the strings under ["response"] and ["thread_id"] *)
Record http_response := {
  raise_for_status : outcome unit;
  json : outcome (gmap string string)
}.

Definition FASTAPI_BACKEND_URL : string := "http://127.0.0.1:8000/".

Section WithBackend.

(** [str(uuid.uuid4())] *)
Variable uuid4 : string.

(** [requests.post(url, json=payload)] *)
Variable post : string → payload → outcome http_response.

(** [isinstance(e, requests.exceptions.ConnectionError)] and
    [isinstance(e, requests.exceptions.RequestException)] *)
Variable is_ConnectionError : exn → bool.
Variable is_RequestException : exn → bool.

(** [str(e)] *)
Variable str : exn → string.

(** the three [if ... not in st.session_state] blocks *)
Definition initialize (st : session_state) : session_state :=
  {| user_id := Some (default uuid4 (user_id st));
     messages := Some (default [] (messages st));
     thread_id := Some (default None (thread_id st)) |}.

Definition history (st : session_state) : list chat_entry :=
  default [] (messages st).

Definition append_entry (e : chat_entry) (st : session_state)
  : session_state :=
  {| user_id := user_id st;
     messages := Some (history st ++ [e]);
     thread_id := thread_id st |}.

Definition set_thread_id (t : option string) (st : session_state)
  : session_state :=
  {| user_id := user_id st; messages := messages st;
     thread_id := Some t |}.

Definition show (e : chat_entry) : ui_event :=
  chat_message (role e) (entry_content e).

(** the body of the [try] up to [agent_response] *)
Definition ask_backend (p : payload) : outcome (gmap string string) :=
  response ← post (FASTAPI_BACKEND_URL +:+ "/chat") p;
  _ ← raise_for_status response;
  json response.

(** One run of the script with the value of [st.chat_input(...)]: the
    session state it leaves, what it shows, and how it ends. *)
Definition run_script (prompt : option string) (st : session_state)
  : session_state * list ui_event * script_end :=
  let st := initialize st in
  let ui := map show (history st) in
  match prompt with
  | Some (String c rest) =>
      let prompt := String c rest in
      let st := append_entry {| role := "user"; entry_content := prompt |} st in
      let ui := ui ++ [chat_message "user" prompt] in
      let p := {| p_user_id := default uuid4 (user_id st);
                  p_message := prompt |} in
      match ask_backend p with
      | Return agent_response =>
          let bot_response :=
            default "Sorry, I couldn't process that. Can you please rephrase?"
              (agent_response !! "response") in
          let st := set_thread_id (agent_response !! "thread_id") st in
          let ui := ui ++ [chat_message "assistant" bot_response] in
          let st :=
            append_entry
              {| role := "assistant"; entry_content := bot_response |} st in
          (st, ui, finished)
      | Raise e =>
          if is_ConnectionError e then
            (st,
             ui ++ [error "Could not connect to the FastAPI backend. Please ensure the backend server is running."],
             stopped)
          else if is_RequestException e then
            (st,
             ui ++ [error ("An error occurred while communicating with the backend: "
                           +:+ str e)],
             stopped)
          else (st, ui, uncaught e)
      end
  | _ => (st, ui, finished)
  end.

End WithBackend.

End Frontend.

(** ** More concrete collaborators and inputs *)

Module MoreSamples.
Import Tools Agent Samples.

Definition tc_book : tool_call :=
  {| tc_id := "call_4"; tc_name := "book_meeting"; tc_arguments := "{}" |}.

(** the text of a refused free/busy request; it names the endpoint *)
Definition refused_text : string :=
  "<HttpError 403 when requesting https://www.googleapis.com/calendar/v3/freeBusy?alt=json returned Forbidden>".

Definition svc_refused : calendar_service :=
  calendar_with (Raise (HttpError refused_text)).

(** a free/busy answer that has no entry for the primary calendar *)
Definition svc_no_primary : calendar_service :=
  calendar_with (Return ∅).

(** [tool_executor.invoke] on the argument of line 114.  LangGraph's
    [ToolExecutor] (not part of the repository) reads the attribute [tool]
    of the invocation it is handed; the one-element list [[tool_call]] has
    none, so the call raises for every request, whether its name is in
    [tools] or not, before any tool is looked up. *)
Definition exec_on_list (calls : list tool_call) : outcome string :=
  Raise (OtherError "AttributeError" "'list' object has no attribute 'tool'").

(** *** credentials *)

Definition fresh_creds : Auth.credentials :=
  {| Auth.valid := true; Auth.expired := false;
     Auth.refresh_token := Some "1//refresh";
     Auth.to_json := "{token: fresh}" |}.

Definition stale_creds : Auth.credentials :=
  {| Auth.valid := false; Auth.expired := true;
     Auth.refresh_token := Some "1//refresh";
     Auth.to_json := "{token: stale}" |}.

Definition parse_token (text : string) : outcome Auth.credentials :=
  if decide (text = "{token: fresh}") then Return fresh_creds
  else if decide (text = "{token: stale}") then Return stale_creds
  else Raise (ValueError "not an authorized user file").

Definition refresh_ok (c : Auth.credentials) : outcome Auth.credentials :=
  Return fresh_creds.

Definition refresh_revoked (c : Auth.credentials)
  : outcome Auth.credentials :=
  Raise (OtherError "RefreshError" "invalid_grant").

Definition consent_granted : outcome Auth.credentials := Return fresh_creds.

Definition build_free (c : Auth.credentials) : outcome calendar_service :=
  Return svc_free.

Definition no_token : Auth.world :=
  {| Auth.token_json := None; Auth.events := [] |}.

Definition stale_token : Auth.world :=
  {| Auth.token_json := Some "{token: stale}"; Auth.events := [] |}.

Definition fresh_token : Auth.world :=
  {| Auth.token_json := Some "{token: fresh}"; Auth.events := [] |}.

(** *** the endpoint *)

Definition stream_of (final : list message) : list MainApi.stream_event :=
  [ {| MainApi.event := "on_chain_start"; MainApi.data_output := None |};
    {| MainApi.event := "on_chain_end";
       MainApi.data_output := Some {[ "messages" := [] ]} |};
    {| MainApi.event := "on_chain_end";
       MainApi.data_output := Some {[ "messages" := final ]} |};
    {| MainApi.event := "on_chain_stream"; MainApi.data_output := None |} ].

(** the agent graph behind the endpoint, with the oracle [llm_once
    [tc_check]] and the executor [exec_free] *)
Definition agent_stream (msgs : list message) (thread : string)
  : outcome (list MainApi.stream_event) :=
  match invoke (llm_once [tc_check]) exec_free dumps_plain 5
          {| messages := msgs; summary := None; start_time := None;
             end_time := None; attendees := None;
             calendar_check_result := None; action_needed := None |} with
  | Halted s _ => Return (stream_of (messages s))
  | Crashed e _ => Raise e
  | OutOfFuel _ _ _ =>
      Raise (OtherError "GraphRecursionError" "Recursion limit reached")
  end.

(** an application that echoes its input and adds nothing *)
Definition silent_stream (msgs : list message) (thread : string)
  : outcome (list MainApi.stream_event) :=
  Return (stream_of msgs).

(** parsed calls, by name *)
Definition names_of (m : message) : list string :=
  map tc_name (requested_actions m).

(** [repr] on strings without quotes, backslashes and control
    characters *)
Definition repr_plain (s : string) : string := "'" +:+ s +:+ "'".

Definition hello : MainApi.ChatRequest :=
  {| MainApi.req_user_id := "user-1";
     MainApi.req_message :=
       "Hey, I want to schedule a call for tomorrow morning." |}.

(** *** the frontend *)

Definition new_session : Frontend.session_state :=
  {| Frontend.user_id := None; Frontend.messages := None;
     Frontend.thread_id := None |}.

Definition answer_json : gmap string string :=
  {[ "response" := "Yes, you're free then!"; "thread_id" := "user-1" ]}.

Definition post_ok (url : string) (p : Frontend.payload)
  : outcome Frontend.http_response :=
  Return {| Frontend.raise_for_status := Return tt;
            Frontend.json := Return answer_json |}.

(** the backend answers 500 *)
Definition post_500 (url : string) (p : Frontend.payload)
  : outcome Frontend.http_response :=
  Return {| Frontend.raise_for_status :=
              Raise (OtherError "HTTPError" "500 Server Error");
            Frontend.json := Return ∅ |}.

Definition is_ConnectionError (e : exn) : bool :=
  match e with
  | OtherError name _ => bool_decide (name = "ConnectionError")
  | _ => false
  end.

Definition is_RequestException (e : exn) : bool :=
  match e with
  | OtherError name _ =>
      bool_decide (name ∈ ["ConnectionError"; "HTTPError"; "Timeout"])
  | _ => false
  end.

End MoreSamples.

(** * Facts *)

(** ** Strings *)

Lemma prefix_app_same (n b : string) : String.prefix n (n +:+ b) = true.
Proof.
  induction n as [|c n IH]; simpl.
  - by destruct b.
  - destruct (ascii_dec c c); [exact IH | congruence].
Qed.

Lemma prefix_app_l (n a b : string) :
  String.prefix n a = true → String.prefix n (a +:+ b) = true.
Proof.
  revert a; induction n as [|c n IH]; intros a; simpl.
  - intros _. by destruct (a +:+ b).
  - destruct a as [|d a]; simpl; [discriminate|].
    destruct (ascii_dec c d); [apply IH | discriminate].
Qed.

Lemma contains_cons (n : string) (d : ascii) (a : string) :
  contains n (String d a) = String.prefix n (String d a) || contains n a.
Proof. reflexivity. Qed.

Lemma contains_app_l (n a b : string) :
  contains n a = true → contains n (a +:+ b) = true.
Proof.
  induction a as [|d a IH].
  - destruct n; [by destruct b | discriminate].
  - change (String d a +:+ b) with (String d (a +:+ b)).
    rewrite !contains_cons. intros H.
    apply orb_true_iff in H as [H|H].
    + apply (prefix_app_l _ _ b) in H.
      change (String d a +:+ b) with (String d (a +:+ b)) in H.
      by rewrite H.
    + rewrite (IH H). apply orb_true_r.
Qed.

Lemma contains_app_r (n a b : string) :
  contains n b = true → contains n (a +:+ b) = true.
Proof.
  intros H. induction a as [|d a IH]; [exact H|].
  change (String d a +:+ b) with (String d (a +:+ b)).
  rewrite contains_cons, IH. apply orb_true_r.
Qed.

Lemma contains_here (n b : string) : contains n (n +:+ b) = true.
Proof.
  destruct n as [|c n]; simpl.
  - by destruct b.
  - destruct (ascii_dec c c); [|congruence].
    by rewrite prefix_app_same.
Qed.

Lemma prefix_refl (n : string) : String.prefix n n = true.
Proof.
  induction n as [|c n IH]; simpl; [done|].
  destruct (ascii_dec c c); [exact IH | congruence].
Qed.

Lemma contains_refl (n : string) : contains n n = true.
Proof.
  destruct n as [|c n]; [done|].
  by rewrite contains_cons, prefix_refl.
Qed.

Lemma contains_join (sep x : string) (parts : list string) :
  x ∈ parts → contains x (join sep parts) = true.
Proof.
  unfold join. induction parts as [|y parts IH]; intros Hin.
  - by apply elem_of_nil in Hin.
  - apply elem_of_cons in Hin as [->|Hin].
    + destruct parts as [|z parts]; simpl.
      * apply contains_refl.
      * apply contains_here.
    + destruct parts as [|z parts]; [by apply elem_of_nil in Hin|].
      change (String.concat sep (y :: z :: parts))
        with (y +:+ sep +:+ String.concat sep (z :: parts)).
      apply contains_app_r, contains_app_r, IH, Hin.
Qed.

(** ** [backend/tools.py] *)

Section ToolsFacts.
Import Tools Failure.

Variable get_calendar_service : outcome calendar_service.
Variable datetime : Type.
Variable fromisoformat : string -> outcome datetime.
Variable isoformat : datetime -> string.

Lemma check_raises_try start_time end_time e :
  check_collaborator_raises get_calendar_service fromisoformat isoformat
    start_time end_time e →
  check_calendar_availability_try get_calendar_service fromisoformat
    isoformat start_time end_time = Raise e.
Proof.
  unfold check_calendar_availability_try.
  intros [-> | (service & -> & [H | (info & d1 & d2 & Hi & H1 & H2 & Hq)])];
    simpl; [done | by rewrite H |].
  by rewrite Hi; simpl; rewrite H1; simpl; rewrite H2; simpl; rewrite Hq.
Qed.

Lemma create_raises_try summary start_time end_time description attendees e :
  create_collaborator_raises get_calendar_service summary start_time
    end_time description attendees e →
  create_google_calendar_event_try get_calendar_service summary start_time
    end_time description attendees = Raise e.
Proof.
  unfold create_google_calendar_event_try.
  intros [-> | (service & -> & H)]; simpl; [done|].
  by rewrite H.
Qed.

(** C9. When the calendar client is obtained, the calendar info is read,
    both timestamps parse and the free/busy query answers with the busy
    list of the primary calendar, the availability check returns exactly
    "The calendar is free during this time." for an empty busy list, and
    otherwise the text that lists "From <start> to <end>" for each busy
    slot, in order, separated by ", ". *)
Theorem check_calendar_availability_free_or_busy
    start_time end_time service info start end_ response busy_slots :
  get_calendar_service = Return service →
  calendars_get service "primary" = Return info →
  fromisoformat start_time = Return start →
  fromisoformat end_time = Return end_ →
  freebusy_query service
    {| timeMin := isoformat start; timeMax := isoformat end_;
       timeZone := default "UTC" (info !! "timeZone");
       items := ["primary"] |} = Return response →
  response !! "primary" = Some busy_slots →
  (busy_slots = [] →
     check_calendar_availability get_calendar_service fromisoformat
       isoformat start_time end_time
     = Return "The calendar is free during this time.") ∧
  (busy_slots ≠ [] →
     ∃ text,
       check_calendar_availability get_calendar_service fromisoformat
       isoformat start_time end_time = Return text ∧
       text = "The calendar is busy during the following times: "
              +:+ join ", " (map busy_text busy_slots)
              +:+ ". Please suggest a different time." ∧
       ∀ slot, slot ∈ busy_slots →
         contains ("From " +:+ slot_start slot +:+ " to " +:+ slot_end slot)
           text = true).
Proof.
  intros Hs Hi H1 H2 Hq Hr.
  assert (Htry : check_calendar_availability_try get_calendar_service
                   fromisoformat isoformat start_time end_time
                 = match busy_slots with
                   | [] => Return "The calendar is free during this time."
                   | _ => Return
                       ("The calendar is busy during the following times: "
                        +:+ join ", " (map busy_text busy_slots)
                        +:+ ". Please suggest a different time.")
                   end).
  { unfold check_calendar_availability_try.
    rewrite Hs; simpl. rewrite Hi; simpl. rewrite H1; simpl.
    rewrite H2; simpl. rewrite Hq; simpl.
    unfold getitem. rewrite Hr; simpl. reflexivity. }
  unfold Tools.check_calendar_availability. rewrite Htry. split.
  - intros ->. reflexivity.
  - intros Hne. destruct busy_slots as [|slot0 rest]; [done|].
    eexists. split; [reflexivity|]. split; [reflexivity|].
    intros slot Hin.
    apply contains_app_r, contains_app_l, contains_join.
    apply (list_elem_of_fmap_2 busy_text) in Hin. exact Hin.
Qed.

(** Only [HttpError] is caught: it becomes the tool's text; an exception
    of any other class raised by a calendar call leaves the tool as it
    is. *)
Lemma tools_catch_HttpError_only text :
  (∀ start_time end_time,
     check_collaborator_raises get_calendar_service fromisoformat isoformat
       start_time end_time (HttpError text) →
     check_calendar_availability get_calendar_service fromisoformat
       isoformat start_time end_time
     = Return ("An error occurred while checking availability: " +:+ text))
  ∧
  (∀ summary start_time end_time description attendees,
     create_collaborator_raises get_calendar_service summary start_time
       end_time description attendees (HttpError text) →
     create_google_calendar_event get_calendar_service summary start_time
       end_time description attendees
     = Return ("An error occurred while creating the event: " +:+ text))
  ∧
  (∀ start_time end_time e,
     (∀ t, e ≠ HttpError t) →
     check_collaborator_raises get_calendar_service fromisoformat isoformat
       start_time end_time e →
     check_calendar_availability get_calendar_service fromisoformat
       isoformat start_time end_time = Raise e)
  ∧
  (∀ summary start_time end_time description attendees e,
     (∀ t, e ≠ HttpError t) →
     create_collaborator_raises get_calendar_service summary start_time
       end_time description attendees e →
     create_google_calendar_event get_calendar_service summary start_time
       end_time description attendees = Raise e).
Proof.
  split; [|split; [|split]].
  - intros st en H. unfold Tools.check_calendar_availability.
    by rewrite (check_raises_try _ _ _ H).
  - intros su st en de at_ H. unfold Tools.create_google_calendar_event.
    by rewrite (create_raises_try _ _ _ _ _ _ H).
  - intros st en e Hne H. unfold Tools.check_calendar_availability.
    rewrite (check_raises_try _ _ _ H).
    destruct e; try reflexivity. by destruct (Hne text0).
  - intros su st en de at_ e Hne H.
    unfold Tools.create_google_calendar_event.
    rewrite (create_raises_try _ _ _ _ _ _ H).
    destruct e; try reflexivity. by destruct (Hne text0).
Qed.

End ToolsFacts.

(** ** [backend/agent.py]: the two nodes *)

Section AgentFacts.
Import Agent Transcript.

Variable llm_invoke : list message → outcome ai_reply.
Variable tool_executor_invoke : list tool_call → outcome string.
Variable json_dumps : string → string.

Lemma last_message_of_snoc s m :
  last_message_of (append_messages s [m]) = Return m.
Proof. unfold last_message_of. simpl. by rewrite last_snoc. Qed.

Lemma last_message_of_Some s m :
  last (messages s) = Some m → last_message_of s = Return m.
Proof. unfold last_message_of. by intros ->. Qed.

Lemma should_continue_last s m :
  last (messages s) = Some m →
  should_continue s
  = Return (if decide (is_Some (additional_kwargs m !! "tool_calls"))
            then "continue" else "end").
Proof.
  intros H. unfold should_continue.
  rewrite (last_message_of_Some _ _ H). simpl. by case_decide.
Qed.

Lemma call_model_returns s r :
  llm_invoke (messages s) = Return r →
  call_model llm_invoke s = Return (only_messages [response_of r]).
Proof. unfold call_model. by intros ->. Qed.

Lemma call_model_raises s e :
  llm_invoke (messages s) = Raise e → call_model llm_invoke s = Raise e.
Proof. unfold call_model. by intros ->. Qed.

(** *** The fold of a tool result into the node's copy of the state *)

Lemma fold_tool_output_check result state :
  fold_tool_output "check_availability" result state
  = set_action_needed
      (Some (if contains "free" (lower result)
             then "propose_slots" else "ask_for_new_time"))
      (set_calendar_check_result (Some result) state).
Proof. reflexivity. Qed.

Lemma fold_tool_output_book result state :
  fold_tool_output "book_meeting" result state
  = set_action_needed (Some "confirm_booking") state.
Proof. reflexivity. Qed.

Lemma fold_tool_output_other name result state :
  name ≠ "check_availability" → name ≠ "book_meeting" →
  fold_tool_output name result state = state.
Proof. intros. unfold fold_tool_output. by repeat case_decide. Qed.

Lemma fold_tool_output_frame name result state :
  let state' := fold_tool_output name result state in
  messages state' = messages state ∧ summary state' = summary state ∧
  start_time state' = start_time state ∧ end_time state' = end_time state ∧
  attendees state' = attendees state.
Proof. unfold fold_tool_output. by repeat case_decide. Qed.

(** *** The loop over the requested calls *)

Lemma call_tool_loop_returns calls : ∀ state outputs state' outputs',
  call_tool_loop tool_executor_invoke json_dumps calls state outputs
  = Return (state', outputs') →
  ∃ results,
    outputs' = outputs ++ results ∧
    Forall2 (produced tool_executor_invoke json_dumps) calls results.
Proof.
  induction calls as [|tc calls IH]; intros state outputs state' outputs'.
  - simpl. intros [= <- <-]. exists []. by rewrite app_nil_r.
  - simpl. destruct (tool_executor_invoke [tc]) as [result|e] eqn:Hx;
      simpl; [|discriminate].
    intros H. apply IH in H as (results & -> & Hall).
    exists (ToolMessage (tc_id tc) (json_dumps result) :: results).
    split; [by rewrite <- app_assoc|].
    constructor; [by exists result | done].
Qed.

Lemma call_tool_loop_total calls : ∀ state outputs,
  (∀ tc, tc ∈ calls → returns (tool_executor_invoke [tc]) = true) →
  ∃ state' outputs',
    call_tool_loop tool_executor_invoke json_dumps calls state outputs
    = Return (state', outputs').
Proof.
  induction calls as [|tc calls IH]; intros state outputs Hall.
  - by eexists _, _.
  - simpl. pose proof (Hall tc (list_elem_of_here _ _)) as Hx.
    destruct (tool_executor_invoke [tc]) as [result|e]; [|discriminate].
    simpl. apply IH. intros tc' Hin. apply Hall. by right.
Qed.

Lemma call_tool_loop_raises calls : ∀ state outputs tc e,
  tc ∈ calls → tool_executor_invoke [tc] = Raise e →
  returns (call_tool_loop tool_executor_invoke json_dumps calls state outputs)
  = false.
Proof.
  induction calls as [|tc0 calls IH]; intros state outputs tc e Hin Hx.
  - by apply elem_of_nil in Hin.
  - simpl. apply elem_of_cons in Hin as [<-|Hin].
    + by rewrite Hx.
    + destruct (tool_executor_invoke [tc0]); [|done]. simpl. eauto.
Qed.

Lemma call_tool_loop_raise_inv calls : ∀ state outputs e,
  call_tool_loop tool_executor_invoke json_dumps calls state outputs
  = Raise e →
  ∃ tc, tc ∈ calls ∧ tool_executor_invoke [tc] = Raise e.
Proof.
  induction calls as [|tc0 calls IH]; intros state outputs e; [done|].
  simpl. destruct (tool_executor_invoke [tc0]) as [result|e0] eqn:Hx; simpl.
  - intros H. apply IH in H as (tc & Hin & Hr). exists tc.
    split; [by right|done].
  - intros [= ->]. exists tc0. split; [by left|done].
Qed.

Lemma call_tool_returns state u :
  call_tool tool_executor_invoke json_dumps state = Return u →
  ∃ m state' outputs,
    last (messages state) = Some m ∧
    call_tool_loop tool_executor_invoke json_dumps (requested_actions m)
      state [] = Return (state', outputs) ∧
    u = messages_and_flag outputs (action_needed state').
Proof.
  unfold call_tool, last_message_of.
  destruct (last (messages state)) as [m|]; simpl; [|discriminate].
  destruct (call_tool_loop _ _ _ _ _) as [[state' outputs]|e] eqn:Hloop;
    simpl; [|discriminate].
  intros [= <-]. by exists m, state', outputs.
Qed.

Lemma produced_answers tc m :
  produced tool_executor_invoke json_dumps tc m → answers tc m.
Proof. by intros (result & _ & ->). Qed.

(** [call_tool] has no handler of its own around the executor: it returns
    one result message per request, in request order, each carrying its
    request's id and the dumped payload, exactly when the executor returns
    for every request of the batch; when the executor raises on some
    request, [call_tool] raises too and returns no result message. *)
Lemma call_tool_results_iff_executor_returns state m :
  last (messages state) = Some m →
  ((∀ tc, tc ∈ requested_actions m →
          returns (tool_executor_invoke [tc]) = true) →
   ∃ u outputs,
     call_tool tool_executor_invoke json_dumps state = Return u ∧
     upd_messages u = Some outputs ∧
     length outputs = length (requested_actions m) ∧
     Forall2 (produced tool_executor_invoke json_dumps)
       (requested_actions m) outputs)
  ∧
  (∀ tc e, tc ∈ requested_actions m →
           tool_executor_invoke [tc] = Raise e →
           returns (call_tool tool_executor_invoke json_dumps state)
           = false).
Proof.
  intros Hlast. split.
  - intros Hall.
    destruct (call_tool_loop_total (requested_actions m) state [] Hall)
      as (state' & outputs & Hloop).
    exists (messages_and_flag outputs (action_needed state')), outputs.
    unfold call_tool. rewrite (last_message_of_Some _ _ Hlast). simpl.
    rewrite Hloop. simpl. split; [done|]. split; [done|].
    apply call_tool_loop_returns in Hloop as (results & -> & Hres).
    simpl. split; [|done]. symmetry. by eapply Forall2_length.
  - intros tc e Hin Hx. unfold call_tool.
    rewrite (last_message_of_Some _ _ Hlast). simpl.
    pose proof (call_tool_loop_raises _ state [] _ _ Hin Hx) as Hr.
    by destruct (call_tool_loop _ _ _ _ _) as [[? ?]|?].
Qed.

(** C4. Whatever [call_tool] returns, the update has the keys
    ["messages"] and ["action_needed"] and no other: once the graph has
    folded it into the state, [summary], [start_time], [end_time],
    [attendees] and [calendar_check_result] are what they were before the
    execution step. *)
Theorem call_tool_update_touches_messages_and_flag_only state u :
  call_tool tool_executor_invoke json_dumps state = Return u →
  (is_Some (upd_messages u) ∧ is_Some (upd_action_needed u) ∧
   upd_summary u = None ∧ upd_start_time u = None ∧
   upd_end_time u = None ∧ upd_attendees u = None ∧
   upd_calendar_check_result u = None)
  ∧
  (summary (apply_update state u) = summary state ∧
   start_time (apply_update state u) = start_time state ∧
   end_time (apply_update state u) = end_time state ∧
   attendees (apply_update state u) = attendees state ∧
   calendar_check_result (apply_update state u)
   = calendar_check_result state).
Proof.
  intros H. apply call_tool_returns in H as (m & state' & outputs & _ & _ & ->).
  unfold messages_and_flag, apply_update; simpl. by repeat split.
Qed.

Lemma call_tool_no_calls state m :
  last (messages state) = Some m →
  additional_kwargs m !! "tool_calls" = Some [] →
  call_tool tool_executor_invoke json_dumps state
  = Return (messages_and_flag [] (action_needed state)).
Proof.
  intros Hlast Hkey. unfold call_tool.
  rewrite (last_message_of_Some _ _ Hlast). simpl.
  unfold requested_actions. by rewrite Hkey.
Qed.

(** C10. [should_continue] looks at one thing, whether the last message's
    [additional_kwargs] has the key ["tool_calls"].  When the key is there,
    whatever list is under it, it answers "continue" and the graph routes
    to the execution node; for an empty list the execution node returns an
    update with zero result messages and hands control back to the
    decision node with the transcript as it was.  When the key is not
    there it answers "end" and the graph routes to [END].  (Without a last
    message it raises [IndexError].) *)
Theorem should_continue_decided_by_key_presence state :
  (∀ m calls,
     last (messages state) = Some m →
     additional_kwargs m !! "tool_calls" = Some calls →
     should_continue state = Return "continue" ∧
     conditional_edge "continue" = Return N_call_tool ∧
     (calls = [] →
      call_tool tool_executor_invoke json_dumps state
      = Return (messages_and_flag [] (action_needed state)) ∧
      ∃ state',
        step llm_invoke tool_executor_invoke json_dumps N_call_tool state
        = Return (N_call_model, state') ∧
        messages state' = messages state))
  ∧
  (∀ m,
     last (messages state) = Some m →
     additional_kwargs m !! "tool_calls" = None →
     should_continue state = Return "end" ∧
     conditional_edge "end" = Return N_END)
  ∧
  (messages state = [] → should_continue state = Raise IndexError).
Proof.
  split; [|split].
  - intros m calls Hlast Hkey. split; [|split].
    + rewrite (should_continue_last _ _ Hlast). rewrite Hkey.
      by case_decide as Hd; [|destruct Hd].
    + reflexivity.
    + intros ->.
      pose proof (call_tool_no_calls _ _ Hlast Hkey) as Hcall.
      split; [exact Hcall|].
      eexists. unfold step. rewrite Hcall. simpl. split; [reflexivity|].
      simpl. apply app_nil_r.
  - intros m Hlast Hkey. split; [|reflexivity].
    rewrite (should_continue_last _ _ Hlast). rewrite Hkey.
    by case_decide as Hd; [destruct Hd|].
  - intros Hnil. unfold should_continue, last_message_of. by rewrite Hnil.
Qed.

(** ** The graph *)

Lemma run_from_END fuel s tr :
  run_from llm_invoke tool_executor_invoke json_dumps fuel N_END s tr
  = Halted s tr.
Proof. by destruct fuel. Qed.

Lemma run_from_S fuel n s tr :
  n ≠ N_END →
  run_from llm_invoke tool_executor_invoke json_dumps (S fuel) n s tr
  = match step llm_invoke tool_executor_invoke json_dumps n s with
    | Raise e => Crashed e (tr ++ [n])
    | Return (n', s') =>
        run_from llm_invoke tool_executor_invoke json_dumps fuel n' s'
          (tr ++ [n])
    end.
Proof. by destruct n. Qed.

Lemma step_call_model s r :
  llm_invoke (messages s) = Return r →
  step llm_invoke tool_executor_invoke json_dumps N_call_model s
  = Return (if decide (is_Some (reply_kwargs r !! "tool_calls"))
            then N_call_tool else N_END,
            append_messages s [response_of r]).
Proof.
  intros H. unfold step. rewrite (call_model_returns _ _ H). simpl.
  change (apply_update s (only_messages [response_of r]))
    with (append_messages s [response_of r]).
  rewrite (should_continue_last _ (response_of r)); simpl;
    [|by rewrite last_snoc].
  by case_decide.
Qed.

Lemma step_call_model_raises s e :
  llm_invoke (messages s) = Raise e →
  step llm_invoke tool_executor_invoke json_dumps N_call_model s = Raise e.
Proof. intros H. unfold step. by rewrite (call_model_raises _ _ H). Qed.

Lemma step_call_tool s u :
  call_tool tool_executor_invoke json_dumps s = Return u →
  step llm_invoke tool_executor_invoke json_dumps N_call_tool s
  = Return (N_call_model, apply_update s u).
Proof. intros H. unfold step. by rewrite H. Qed.

Lemma step_call_tool_raises s e :
  call_tool tool_executor_invoke json_dumps s = Raise e →
  step llm_invoke tool_executor_invoke json_dumps N_call_tool s = Raise e.
Proof. intros H. unfold step. by rewrite H. Qed.

Lemma step_next n s n' s' :
  step llm_invoke tool_executor_invoke json_dumps n s = Return (n', s') →
  match n with
  | N_call_model => n' = N_call_tool ∨ n' = N_END
  | N_call_tool => n' = N_call_model
  | N_END => n' = N_END
  end.
Proof.
  destruct n.
  - destruct (llm_invoke (messages s)) as [r|e] eqn:Hllm.
    + rewrite (step_call_model _ _ Hllm). intros [= <- _].
      case_decide; auto.
    + by rewrite (step_call_model_raises _ _ Hllm).
  - unfold step.
    destruct (call_tool _ _ _); simpl; [|discriminate]. by intros [= <- _].
  - by intros [= <- _].
Qed.

(** A run that reaches [END] from the decision node (resp. from the
    execution node) has appended a [turn_transcript] (resp. the results
    of the pending calls, then a [turn_transcript]). *)
Lemma run_from_halted fuel :
  (∀ s tr s' tr',
     run_from llm_invoke tool_executor_invoke json_dumps fuel
       N_call_model s tr = Halted s' tr' →
     ∃ appended,
       messages s' = messages s ++ appended ∧
       turn_transcript appended ∧
       last tr' = Some N_call_model)
  ∧
  (∀ s tr s' tr' m,
     last (messages s) = Some m →
     run_from llm_invoke tool_executor_invoke json_dumps fuel
       N_call_tool s tr = Halted s' tr' →
     ∃ results appended,
       messages s' = messages s ++ results ++ appended ∧
       Forall2 (produced tool_executor_invoke json_dumps)
         (requested_actions m) results ∧
       turn_transcript appended ∧
       last tr' = Some N_call_model).
Proof.
  induction fuel as [|fuel [IHmodel IHtool]]; [by split|]. split.
  - intros s tr s' tr'. rewrite run_from_S by done.
    destruct (llm_invoke (messages s)) as [r|e] eqn:Hllm;
      [|by rewrite (step_call_model_raises _ _ Hllm)].
    rewrite (step_call_model _ _ Hllm). case_decide as Hkey.
    + intros H. apply (IHtool _ _ _ _ (response_of r)) in H;
        [|by simpl; rewrite last_snoc].
      destruct H as (results & appended & Hm & Hres & Htt & Hlast).
      destruct Hkey as [calls Hkey].
      exists (response_of r :: results ++ appended).
      split; [by rewrite Hm; simpl; rewrite <- app_assoc|].
      split; [|done].
      apply (transcript_round _ calls); [done|done| |done].
      unfold requested_actions in Hres. simpl in Hres.
      rewrite Hkey in Hres. simpl in Hres.
      eapply Forall2_impl; [exact Hres|]. apply produced_answers.
    + rewrite run_from_END. intros [= <- <-].
      exists [response_of r]. split; [done|].
      split; [|by rewrite last_snoc].
      apply transcript_reply; [done|]. by apply eq_None_not_Some.
  - intros s tr s' tr' m Hlast. rewrite run_from_S by done. unfold step.
    destruct (call_tool _ _ s) as [u|e] eqn:Hcall; simpl; [|discriminate].
    apply call_tool_returns in Hcall
      as (m' & state' & outputs & Hlast' & Hloop & ->).
    assert (m' = m) as -> by congruence.
    apply call_tool_loop_returns in Hloop as (results & -> & Hres).
    intros H. apply IHmodel in H as (appended & Hm & Htt & Hl).
    exists results, appended. split; [|done].
    rewrite Hm. simpl. by rewrite <- app_assoc.
Qed.

Lemma invoke_halted fuel s s' tr :
  invoke llm_invoke tool_executor_invoke json_dumps fuel s = Halted s' tr →
  ∃ appended,
    messages s' = messages s ++ appended ∧
    turn_transcript appended ∧
    last tr = Some N_call_model.
Proof. apply run_from_halted. Qed.

(** Every run executes the two nodes in turn, the decision node first. *)
Lemma run_from_trace fuel : ∀ n s tr,
  ∃ suffix,
    trace_of (run_from llm_invoke tool_executor_invoke json_dumps
                fuel n s tr) = tr ++ suffix ∧
    (n = N_END → suffix = []) ∧
    alternates n suffix = true.
Proof.
  induction fuel as [|fuel IH]; intros n s tr.
  - exists []. rewrite app_nil_r. by destruct n.
  - assert (n = N_END ∨ n ≠ N_END) as [->|Hn] by (destruct n; auto).
    { exists []. by rewrite run_from_END, app_nil_r. }
    rewrite run_from_S by done.
    destruct (step _ _ _ n s) as [[n' s']|e] eqn:Hstep.
    + destruct (IH n' s' (tr ++ [n])) as (suffix & -> & Hend & Halt).
      exists (n :: suffix). rewrite <- app_assoc. split; [done|].
      split; [done|]. apply step_next in Hstep.
      destruct n; [|subst n'; exact Halt|done].
      destruct Hstep as [->| ->]; [exact Halt|]. by rewrite (Hend eq_refl).
    + exists [n]. by destruct n.
Qed.

End AgentFacts.

(** ** Transcripts *)

Section TranscriptFacts.
Import Agent Transcript.

Lemma transcript_head l :
  turn_transcript l → ∃ m rest, l = m :: rest ∧ msg_type m = ai.
Proof. intros []; eauto. Qed.

Lemma transcript_last l :
  turn_transcript l →
  ∃ m, last l = Some m ∧ msg_type m = ai ∧
       additional_kwargs m !! "tool_calls" = None.
Proof.
  induction 1 as [m Hai Hkey | m calls results rest Hai Hkey Hres Htt IH].
  - by exists m.
  - destruct IH as (z & Hz & Hz'). exists z. split; [|done].
    by rewrite last_cons, last_app, Hz.
Qed.

Lemma results_are_not_assistant calls results m :
  Forall2 answers calls results → m ∈ results → msg_type m ≠ ai.
Proof.
  intros Hres Hin Hai.
  apply (Forall2_Forall_r _ (λ m, msg_type m = tool)) in Hres.
  - rewrite Forall_forall in Hres. specialize (Hres _ Hin). congruence.
  - apply Forall_true. by intros tc m' [? _].
Qed.

(** every assistant message of the transcript that lists at least one
    call is followed by the results of its calls and then by the next
    assistant message *)
Lemma transcript_answered l :
  turn_transcript l →
  ∀ pre m post,
    l = pre ++ m :: post → msg_type m = ai → requested_actions m ≠ [] →
    ∃ results rest next,
      post = results ++ next :: rest ∧
      Forall2 answers (requested_actions m) results ∧
      msg_type next = ai.
Proof.
  induction 1 as [m0 Hai0 Hkey0 | m0 calls results rest Hai0 Hkey0 Hres Htt IH];
    intros pre m post Heq Hai Hreq.
  - destruct pre as [|p [|q pre]]; [|discriminate..].
    injection Heq as <- <-.
    unfold requested_actions in Hreq. by rewrite Hkey0 in Hreq.
  - destruct pre as [|p pre]; simpl in Heq; injection Heq as <- Heq.
    + subst post.
      destruct (transcript_head _ Htt) as (next & rest' & -> & Hnext).
      exists results, rest', next. split; [done|]. split; [|done].
      unfold requested_actions. by rewrite Hkey0.
    + apply app_eq_inv in Heq as [(k & -> & Hk) | (k & -> & ->)].
      * destruct k as [|x k]; simpl in Hk.
        -- apply (IH [] m post); [by rewrite Hk|done..].
        -- injection Hk as <- _. exfalso.
           eapply results_are_not_assistant; [exact Hres| |exact Hai].
           apply elem_of_app. right. by left.
      * by apply (IH k m post).
Qed.



End TranscriptFacts.

(** ** The loop *)

Section LoopFacts.
Import Agent Transcript.

Variable llm_invoke : list message → outcome ai_reply.
Variable tool_executor_invoke : list tool_call → outcome string.
Variable json_dumps : string → string.

(** C1 (amended). A decision step appends the oracle's reply and then
    halts exactly when the reply's [additional_kwargs] lacks the key
    ["tool_calls"]; when the key is there, whatever list is under it,
    control passes to the execution node.  A run that returns to the
    caller ended that way: its last node is the decision node and its
    last message an assistant message without the key. *)
Theorem loop_halts_iff_tool_calls_key_absent :
  (∀ s r,
     llm_invoke (messages s) = Return r →
     (reply_kwargs r !! "tool_calls" = None →
      step llm_invoke tool_executor_invoke json_dumps N_call_model s
      = Return (N_END, append_messages s [response_of r]) ∧
      ∀ fuel tr,
        run_from llm_invoke tool_executor_invoke json_dumps (S fuel)
          N_call_model s tr
        = Halted (append_messages s [response_of r]) (tr ++ [N_call_model]))
     ∧
     (is_Some (reply_kwargs r !! "tool_calls") →
      step llm_invoke tool_executor_invoke json_dumps N_call_model s
      = Return (N_call_tool, append_messages s [response_of r])))
  ∧
  (∀ fuel s s' tr,
     invoke llm_invoke tool_executor_invoke json_dumps fuel s
     = Halted s' tr →
     ∃ m,
       last (messages s') = Some m ∧ msg_type m = ai ∧
       additional_kwargs m !! "tool_calls" = None ∧
       last tr = Some N_call_model).
Proof.
  split.
  - intros s r Hllm. split.
    + intros Hkey.
      assert (Hstep : step llm_invoke tool_executor_invoke json_dumps
                        N_call_model s
                      = Return (N_END, append_messages s [response_of r])).
      { rewrite (step_call_model _ tool_executor_invoke json_dumps _ _ Hllm).
        rewrite Hkey. case_decide as Hd; [by destruct Hd|done]. }
      split; [exact Hstep|]. intros fuel tr.
      rewrite run_from_S by done. rewrite Hstep. apply run_from_END.
    + intros Hkey.
      rewrite (step_call_model _ tool_executor_invoke json_dumps _ _ Hllm).
      by case_decide.
  - intros fuel s s' tr H.
    apply invoke_halted in H as (appended & Hm & Htt & Hlast).
    destruct (transcript_last _ Htt) as (m & Hl & Hai & Hkey).
    exists m. rewrite Hm, last_app, Hl. done.
Qed.

(** C5 (amended). In the state a run returns to the caller, every assistant
    message appended by the run that lists at least one requested action is
    directly followed by as many result messages as it lists actions,
    the i-th result carrying the id of the i-th request, and then by the
    next assistant message. *)
Theorem requested_actions_answered_by_id_in_order fuel s s' tr :
  invoke llm_invoke tool_executor_invoke json_dumps fuel s = Halted s' tr →
  ∃ appended,
    messages s' = messages s ++ appended ∧
    ∀ pre m post,
      appended = pre ++ m :: post →
      msg_type m = ai → requested_actions m ≠ [] →
      ∃ results rest next,
        post = results ++ next :: rest ∧
        length results = length (requested_actions m) ∧
        Forall2 answers (requested_actions m) results ∧
        msg_type next = ai.
Proof.
  intros H. apply invoke_halted in H as (appended & Hm & Htt & _).
  exists appended. split; [done|]. intros pre m post Heq Hai Hreq.
  destruct (transcript_answered _ Htt _ _ _ Heq Hai Hreq)
    as (results & rest & next & -> & Hres & Hnext).
  exists results, rest, next. repeat split; try done.
  symmetry. by eapply Forall2_length.
Qed.


(** C7 (amended). Let the oracle's reply to the input transcript be [r1],
    and let its reply to that transcript extended with [r1] and any
    result messages lack the key ["tool_calls"].  Then, with fuel for
    three node executions, the run is over after at most two decision
    node invocations: it returns to the caller when the tool executor
    returns for every call [r1] lists, and otherwise stops on the
    exception of the executor. *)
Theorem loop_over_within_two_decisions fuel s r1 :
  (3 ≤ fuel)%nat →
  llm_invoke (messages s) = Return r1 →
  (∀ results, ∃ r2,
      llm_invoke (messages s ++ response_of r1 :: results) = Return r2 ∧
      reply_kwargs r2 !! "tool_calls" = None) →
  let run := invoke llm_invoke tool_executor_invoke json_dumps fuel s in
  (decisions (trace_of run) ≤ 2)%nat ∧
  (halted run = true ∨
   ∃ e tc, run = Crashed e [N_call_model; N_call_tool] ∧
           tc ∈ requested_actions (response_of r1) ∧
           tool_executor_invoke [tc] = Raise e) ∧
  ((∀ tc, tc ∈ requested_actions (response_of r1) →
          returns (tool_executor_invoke [tc]) = true) →
   halted run = true).
Proof.
  intros Hfuel Hr1 Hr2 run. subst run.
  destruct fuel as [|[|[|fuel]]]; [lia..|]. unfold invoke, entry_point.
  rewrite run_from_S by done.
  rewrite (step_call_model _ tool_executor_invoke json_dumps _ _ Hr1).
  case_decide as Hkey; [|rewrite run_from_END; simpl; auto].
  rewrite run_from_S by done.
  destruct (call_tool tool_executor_invoke json_dumps
              (append_messages s [response_of r1])) as [u|e] eqn:Hcall.
  - rewrite (step_call_tool llm_invoke _ _ _ _ Hcall).
    apply call_tool_returns in Hcall
      as (m & state' & outputs & Hlast & Hloop & ->).
    apply call_tool_loop_returns in Hloop as (results & -> & _).
    rewrite run_from_S by done.
    destruct (Hr2 results) as (r2 & Hllm2 & Hnone).
    rewrite (step_call_model _ tool_executor_invoke json_dumps _ r2);
      [|by simpl; rewrite <- app_assoc].
    rewrite Hnone. case_decide as Hd; [by destruct Hd|].
    rewrite run_from_END. simpl. auto.
  - rewrite (step_call_tool_raises llm_invoke _ _ _ _ Hcall).
    split; [vm_compute; lia|]. split.
    + right. unfold call_tool in Hcall. rewrite last_message_of_snoc in Hcall.
      simpl in Hcall.
      destruct (call_tool_loop _ _ _ _ _) as [[state' outputs]|e'] eqn:Hloop;
        simpl in Hcall; [discriminate|]. injection Hcall as ->.
      apply call_tool_loop_raise_inv in Hloop as (tc & Hin & Hx).
      by exists e, tc.
    + intros Hall. exfalso. unfold call_tool in Hcall.
      rewrite last_message_of_snoc in Hcall. simpl in Hcall.
      destruct (call_tool_loop_total tool_executor_invoke json_dumps
                  (requested_actions (response_of r1))
                  (append_messages s [response_of r1]) [] Hall)
        as (state' & outputs & Hloop).
      by rewrite Hloop in Hcall.
Qed.

End LoopFacts.

(** ** A failing calendar call, from the tool to the next decision *)

Section FailureFacts.
Import Tools Failure Agent Transcript.

Variable get_calendar_service : outcome calendar_service.
Variable datetime : Type.
Variable fromisoformat : string → outcome datetime.
Variable isoformat : datetime → string.
Variable llm_invoke : list message → outcome ai_reply.
Variable tool_executor_invoke : list tool_call → outcome string.
Variable json_dumps : string → string.

(** C8 (amended). When a calendar call made by the availability check or
    by the event creation raises an [HttpError], the tool returns the text
    "An error occurred while ...: <error>" instead of raising; an exception
    of any other class raised by such a call propagates out of the tool;
    and a text the executor returns for the single requested call is, after
    the execution step, the last message of the transcript the decision
    node reads next. *)
Theorem HttpError_becomes_text_for_next_decision text :
  (∀ start_time end_time,
     check_collaborator_raises get_calendar_service fromisoformat isoformat
       start_time end_time (HttpError text) →
     check_calendar_availability get_calendar_service fromisoformat
       isoformat start_time end_time
     = Return ("An error occurred while checking availability: " +:+ text))
  ∧
  (∀ summary start_time end_time description attendees,
     create_collaborator_raises get_calendar_service summary start_time
       end_time description attendees (HttpError text) →
     create_google_calendar_event get_calendar_service summary start_time
       end_time description attendees
     = Return ("An error occurred while creating the event: " +:+ text))
  ∧
  (∀ start_time end_time e,
     (∀ t, e ≠ HttpError t) →
     check_collaborator_raises get_calendar_service fromisoformat isoformat
       start_time end_time e →
     check_calendar_availability get_calendar_service fromisoformat
       isoformat start_time end_time = Raise e)
  ∧
  (∀ summary start_time end_time description attendees e,
     (∀ t, e ≠ HttpError t) →
     create_collaborator_raises get_calendar_service summary start_time
       end_time description attendees e →
     create_google_calendar_event get_calendar_service summary start_time
       end_time description attendees = Raise e)
  ∧
  (∀ state m tc payload,
     last (messages state) = Some m →
     requested_actions m = [tc] →
     tool_executor_invoke [tc] = Return payload →
     ∃ state',
       step llm_invoke tool_executor_invoke json_dumps N_call_tool state
       = Return (N_call_model, state') ∧
       messages state'
       = messages state ++ [ToolMessage (tc_id tc) (json_dumps payload)]).
Proof.
  destruct (tools_catch_HttpError_only get_calendar_service datetime
              fromisoformat isoformat text)
    as (Hcheck & Hcreate & Hcheck' & Hcreate').
  do 4 (split; [assumption|]).
  intros state m tc payload Hlast Hreq Hx. eexists. split.
  - apply step_call_tool. unfold call_tool.
    rewrite (last_message_of_Some _ _ Hlast). simpl.
    rewrite Hreq. simpl. rewrite Hx. simpl. reflexivity.
  - reflexivity.
Qed.

End FailureFacts.

(** ** Concrete runs *)

Section Examples.
Import Tools Failure Agent Transcript Samples.

(** An oracle that always sends the key with an empty list keeps the
    graph running for ever, whatever the executor. *)
Lemma always_empty_calls_runs_on exec dumps fuel : ∀ n s tr,
  n ≠ N_END →
  (n = N_call_tool →
   ∃ m, last (messages s) = Some m ∧
        additional_kwargs m !! "tool_calls" = Some []) →
  halted (run_from llm_always_empty_calls exec dumps fuel n s tr) = false.
Proof.
  induction fuel as [|fuel IH]; intros n s tr Hn Htool; [by destruct n|].
  rewrite run_from_S by done. destruct n; [| |done].
  - rewrite (step_call_model llm_always_empty_calls exec dumps s (wants []))
      by done.
    case_decide as Hkey; [|by destruct Hkey; eexists].
    apply IH; [done|]. intros _. exists (response_of (wants [])).
    split; [by simpl; rewrite last_snoc|done].
  - destruct (Htool eq_refl) as (m & Hlast & Hkey).
    rewrite (step_call_tool llm_always_empty_calls exec dumps s _
               (call_tool_no_calls exec dumps s m Hlast Hkey)).
    by apply IH.
Qed.

(** C2. One availability check on a free calendar: the node's copy of the
    state receives the tool's text, but the update that [call_tool]
    returns carries no ["calendar_check_result"] key, so the field of
    the graph state is still [None] after the execution step, while
    [action_needed], written next to it, is returned and stored. *)
Theorem calendar_check_result_not_persisted :
  let state := asked [tc_check] in
  calendar_check_result
    (fold_tool_output "check_availability" free_text state)
  = Some free_text ∧
  call_tool exec_free dumps_plain state
  = Return (messages_and_flag
              [ToolMessage "call_1" (dumps_plain free_text)]
              (Some "propose_slots")) ∧
  ∃ state',
    step (llm_once [tc_check]) exec_free dumps_plain N_call_tool state
    = Return (N_call_model, state') ∧
    calendar_check_result state' = None ∧
    action_needed state' = Some "propose_slots".
Proof.
  intros state. split; [reflexivity|]. split; [reflexivity|].
  eexists. split; [reflexivity|]. split; reflexivity.
Qed.

(** A reply whose ["tool_calls"] list is empty requests no action, yet the
    decision step hands over to the execution node and the run needs a
    second decision to end. *)
Lemma empty_tool_calls_list_does_not_halt :
  llm_once [] (messages first_turn) = Return (wants []) ∧
  requested_actions (response_of (wants [])) = [] ∧
  next_node (step (llm_once []) exec_free dumps_plain N_call_model
               first_turn) = Some N_call_tool ∧
  halted (invoke (llm_once []) exec_free dumps_plain 1 first_turn) = false ∧
  trace_of (invoke (llm_once []) exec_free dumps_plain 5 first_turn)
  = [N_call_model; N_call_tool; N_call_model].
Proof. repeat split; vm_compute; reflexivity. Qed.


(** An oracle none of whose replies requests an action, but all of whose
    replies carry the key: three decisions within five node executions,
    and no end for any fuel. *)
Lemma empty_calls_oracle_exceeds_two_decisions :
  (∀ transcript,
     llm_always_empty_calls transcript = Return (wants []) ∧
     requested_actions (response_of (wants [])) = []) ∧
  decisions
    (trace_of (invoke llm_always_empty_calls exec_free dumps_plain 5
                 first_turn)) = 3 ∧
  halted (invoke llm_always_empty_calls exec_free dumps_plain 5 first_turn)
  = false ∧
  (∀ fuel,
     halted (invoke llm_always_empty_calls exec_free dumps_plain fuel
               first_turn) = false).
Proof.
  split; [by intros transcript|]. split; [by vm_compute|].
  split; [by vm_compute|]. intros fuel.
  by apply always_empty_calls_runs_on.
Qed.

(** A timeout of the calendar client is not an [HttpError]: both tools
    let it through. *)
Lemma timeout_is_not_caught :
  check_calendar_availability (Return svc_timeout) fromisoformat_text
    isoformat_text t10 t11
  = Raise (OtherError "TimeoutError" "timed out") ∧
  create_google_calendar_event (Return svc_timeout) "Call" t10 t11 "" None
  = Raise (OtherError "TimeoutError" "timed out").
Proof. split; reflexivity. Qed.

End Examples.

(** ** The theorems at work on the sample collaborators *)

Section Witnesses.
Import Tools Failure Agent Transcript Samples.

Lemma loop_halts_iff_tool_calls_key_absent_witness :
  step (llm_once [tc_check]) exec_free dumps_plain N_call_model first_turn
  = Return (N_call_tool, asked [tc_check])
  ∧
  (step (llm_once [tc_check]) exec_free dumps_plain N_call_model
     (append_messages (asked [tc_check])
        [ToolMessage "call_1" (dumps_plain free_text)])
   = Return (N_END,
             append_messages
               (append_messages (asked [tc_check])
                  [ToolMessage "call_1" (dumps_plain free_text)])
               [response_of (says "Yes, you're free then!")]))
  ∧
  ∃ m, last (messages checked_and_answered) = Some m ∧
       msg_type m = ai ∧
       additional_kwargs m !! "tool_calls" = None ∧
       last [N_call_model; N_call_tool; N_call_model] = Some N_call_model.
Proof.
  destruct (loop_halts_iff_tool_calls_key_absent
              (llm_once [tc_check]) exec_free dumps_plain) as [Hstep Hexit].
  split; [|split].
  - apply (Hstep first_turn (wants [tc_check])); [reflexivity|].
    exists [tc_check]. reflexivity.
  - apply (Hstep _ (says "Yes, you're free then!")); reflexivity.
  - apply (Hexit 5 first_turn). vm_compute. reflexivity.
Defined.

Lemma call_tool_update_touches_messages_and_flag_only_witness :
  let state := asked [tc_check] in
  let u := messages_and_flag [ToolMessage "call_1" (dumps_plain free_text)]
             (Some "propose_slots") in
  call_tool exec_free dumps_plain state = Return u ∧
  calendar_check_result (apply_update state u) = calendar_check_result state ∧
  summary (apply_update state u) = summary state.
Proof.
  intros state u.
  assert (Hcall : call_tool exec_free dumps_plain state = Return u)
    by reflexivity.
  destruct (call_tool_update_touches_messages_and_flag_only
              exec_free dumps_plain state u Hcall)
    as (_ & Hsummary & _ & _ & _ & Hresult).
  split; [exact Hcall|]. split; [exact Hresult|exact Hsummary].
Defined.

Lemma requested_actions_answered_by_id_in_order_witness :
  invoke (llm_once [tc_check]) exec_free dumps_plain 5 first_turn
  = Halted checked_and_answered [N_call_model; N_call_tool; N_call_model]
  ∧
  ∃ appended,
    messages checked_and_answered = messages first_turn ++ appended ∧
    ∀ pre m post,
      appended = pre ++ m :: post →
      msg_type m = ai → requested_actions m ≠ [] →
      ∃ results rest next,
        post = results ++ next :: rest ∧
        length results = length (requested_actions m) ∧
        Forall2 answers (requested_actions m) results ∧
        msg_type next = ai.
Proof.
  assert (Hrun : invoke (llm_once [tc_check]) exec_free dumps_plain 5
                   first_turn
                 = Halted checked_and_answered
                     [N_call_model; N_call_tool; N_call_model])
    by (vm_compute; reflexivity).
  split; [exact Hrun|].
  exact (requested_actions_answered_by_id_in_order
           (llm_once [tc_check]) exec_free dumps_plain 5 first_turn
           checked_and_answered _ Hrun).
Defined.


Lemma loop_over_within_two_decisions_witness :
  let run := invoke (llm_once [tc_check]) exec_free dumps_plain 5
               first_turn in
  (decisions (trace_of run) ≤ 2)%nat ∧ halted run = true.
Proof.
  intros run.
  assert (Hlater : ∀ results, ∃ r2,
             llm_once [tc_check]
               (messages first_turn
                ++ response_of (wants [tc_check]) :: results) = Return r2 ∧
             reply_kwargs r2 !! "tool_calls" = None).
  { intros results. exists (says "Yes, you're free then!").
    split; reflexivity. }
  destruct (loop_over_within_two_decisions
              (llm_once [tc_check]) exec_free dumps_plain 5 first_turn
              (wants [tc_check]) ltac:(lia) eq_refl Hlater)
    as (Hcount & _ & Hhalt).
  split; [exact Hcount|]. apply Hhalt. intros tc _. reflexivity.
Defined.

Lemma HttpError_becomes_text_for_next_decision_witness :
  check_calendar_availability (Return svc_forbidden) fromisoformat_text
    isoformat_text t10 t11
  = Return ("An error occurred while checking availability: "
            +:+ "<HttpError 403 Forbidden>")
  ∧
  create_google_calendar_event (Raise (HttpError "<HttpError 403 Forbidden>"))
    "Call" t10 t11 "" None
  = Return ("An error occurred while creating the event: "
            +:+ "<HttpError 403 Forbidden>")
  ∧
  check_calendar_availability (Return svc_timeout) fromisoformat_text
    isoformat_text t10 t11
  = Raise (OtherError "TimeoutError" "timed out")
  ∧
  ∃ state',
    step (llm_once [tc_check]) exec_free dumps_plain N_call_tool
      (asked [tc_check]) = Return (N_call_model, state') ∧
    messages state'
    = messages (asked [tc_check])
      ++ [ToolMessage "call_1" (dumps_plain free_text)].
Proof.
  destruct (HttpError_becomes_text_for_next_decision
              (Return svc_forbidden) string fromisoformat_text
              isoformat_text (llm_once [tc_check]) exec_free
              dumps_plain "<HttpError 403 Forbidden>")
    as (Hcheck & _ & _ & _ & Hnext).
  destruct (HttpError_becomes_text_for_next_decision
              (Raise (HttpError "<HttpError 403 Forbidden>")) string
              fromisoformat_text isoformat_text (llm_once [tc_check])
              exec_free dumps_plain "<HttpError 403 Forbidden>")
    as (_ & Hcreate & _ & _ & _).
  destruct (HttpError_becomes_text_for_next_decision
              (Return svc_timeout) string fromisoformat_text
              isoformat_text (llm_once [tc_check]) exec_free
              dumps_plain "")
    as (_ & _ & Hother & _ & _).
  split; [|split; [|split]].
  - apply Hcheck.
    right. exists svc_forbidden. split; [reflexivity|]. right.
    exists {[ "timeZone" := "Asia/Kolkata" ]}, t10, t11.
    repeat split; reflexivity.
  - apply Hcreate. left. reflexivity.
  - apply Hother; [discriminate|].
    right. exists svc_timeout. split; [reflexivity|]. left. reflexivity.
  - apply (Hnext (asked [tc_check]) (response_of (wants [tc_check]))
             tc_check free_text); reflexivity.
Defined.

Lemma check_calendar_availability_free_or_busy_witness :
  check_calendar_availability (Return svc_free) fromisoformat_text
    isoformat_text t10 t11
  = Return "The calendar is free during this time."
  ∧
  ∃ text,
    check_calendar_availability (Return svc_busy) fromisoformat_text
      isoformat_text t10 t11 = Return text ∧
    text = "The calendar is busy during the following times: "
           +:+ "From 2025-06-29T10:00:00+05:30 to 2025-06-29T10:30:00+05:30"
           +:+ ", "
           +:+ "From 2025-06-29T10:45:00+05:30 to 2025-06-29T11:00:00+05:30"
           +:+ ". Please suggest a different time.".
Proof.
  split.
  - apply (proj1 (check_calendar_availability_free_or_busy
                    (Return svc_free) string fromisoformat_text
                    isoformat_text t10 t11 svc_free
                    {[ "timeZone" := "Asia/Kolkata" ]} t10 t11
                    {[ "primary" := [] ]} []
                    eq_refl eq_refl eq_refl eq_refl eq_refl eq_refl)).
    reflexivity.
  - destruct (proj2 (check_calendar_availability_free_or_busy
                    (Return svc_busy) string fromisoformat_text
                    isoformat_text t10 t11 svc_busy
                    {[ "timeZone" := "Asia/Kolkata" ]} t10 t11 _ _
                    eq_refl eq_refl eq_refl eq_refl eq_refl eq_refl))
      as (text & Hcheck & Htext & _); [discriminate|].
    exists text. split; [exact Hcheck|exact Htext].
Defined.

Lemma should_continue_decided_by_key_presence_witness :
  (should_continue (asked []) = Return "continue" ∧
   call_tool exec_free dumps_plain (asked [])
   = Return (messages_and_flag [] None) ∧
   ∃ state',
     step (llm_once []) exec_free dumps_plain N_call_tool (asked [])
     = Return (N_call_model, state') ∧
     messages state' = messages (asked []))
  ∧
  should_continue (asked [tc_check]) = Return "continue"
  ∧
  (should_continue checked_and_answered = Return "end" ∧
   conditional_edge "end" = Return N_END)
  ∧
  should_continue first_turn = Return "end".
Proof.
  split; [|split; [|split]].
  - destruct (proj1 (should_continue_decided_by_key_presence
                       (llm_once []) exec_free dumps_plain (asked []))
                (response_of (wants [])) [] eq_refl eq_refl)
      as (Hcontinue & _ & Hempty).
    destruct (Hempty eq_refl) as (Hcall & Hstep).
    split; [exact Hcontinue|]. split; [exact Hcall|exact Hstep].
  - exact (proj1 (proj1 (should_continue_decided_by_key_presence
                           (llm_once []) exec_free dumps_plain
                           (asked [tc_check]))
                    (response_of (wants [tc_check])) [tc_check]
                    eq_refl eq_refl)).
  - exact (proj1 (proj2 (should_continue_decided_by_key_presence
                           (llm_once []) exec_free dumps_plain
                           checked_and_answered))
             (response_of (says "Yes, you're free then!"))
             eq_refl eq_refl).
  - exact (proj1 (proj1 (proj2 (should_continue_decided_by_key_presence
                                  (llm_once []) exec_free dumps_plain
                                  first_turn))
                    (HumanMessage
                       "Hey, I want to schedule a call for tomorrow morning.")
                    eq_refl eq_refl)).
Defined.

End Witnesses.

(** * Further properties of the code *)

(** ** [backend/agent.py]: whole runs *)

Section RunFacts.
Import Agent Transcript Flag.

Variable llm_invoke : list message → outcome ai_reply.
Variable tool_executor_invoke : list tool_call → outcome string.
Variable json_dumps : string → string.

Lemma same_slots_refl s : same_slots s s.
Proof. by repeat split. Qed.

Lemma same_slots_trans s1 s2 s3 :
  same_slots s1 s2 → same_slots s2 s3 → same_slots s1 s3.
Proof.
  intros (?&?&?&?&?) (?&?&?&?&?). repeat split; congruence.
Qed.

Lemma step_keeps_slots n s n' s' :
  step llm_invoke tool_executor_invoke json_dumps n s = Return (n', s') →
  same_slots s s' ∧ ∃ appended, messages s' = messages s ++ appended.
Proof.
  destruct n.
  - destruct (llm_invoke (messages s)) as [r|e] eqn:Hllm.
    + rewrite (step_call_model _ _ _ _ _ Hllm). intros [= _ <-].
      split; [by repeat split|]. by eexists.
    + by rewrite (step_call_model_raises _ _ _ _ _ Hllm).
  - destruct (call_tool tool_executor_invoke json_dumps s) as [u|e] eqn:Hcall.
    + rewrite (step_call_tool _ _ _ _ _ Hcall). intros [= <- <-].
      apply call_tool_returns in Hcall as (m & st & outs & _ & _ & ->).
      split; [by repeat split|]. by eexists.
    + by rewrite (step_call_tool_raises _ _ _ _ _ Hcall).
  - intros [= _ <-]. split; [apply same_slots_refl|].
    exists []. by rewrite app_nil_r.
Qed.

Lemma run_from_keeps_slots fuel : ∀ n s tr s',
  state_of (run_from llm_invoke tool_executor_invoke json_dumps fuel n s tr)
  = Some s' →
  same_slots s s' ∧ ∃ appended, messages s' = messages s ++ appended.
Proof.
  induction fuel as [|fuel IH]; intros n s tr s'.
  - destruct n; simpl; intros [= <-];
      (split; [apply same_slots_refl|exists []; by rewrite app_nil_r]).
  - assert (n = N_END ∨ n ≠ N_END) as [->|Hn] by (destruct n; auto).
    { rewrite run_from_END. simpl. intros [= <-].
      split; [apply same_slots_refl|exists []; by rewrite app_nil_r]. }
    rewrite run_from_S by done.
    destruct (step _ _ _ n s) as [[n1 s1]|e] eqn:Hstep; [|done].
    intros H. apply IH in H as (Hslots & app2 & Hm2).
    apply step_keeps_slots in Hstep as (Hslots1 & app1 & Hm1).
    split; [by eapply same_slots_trans|].
    exists (app1 ++ app2). by rewrite Hm2, Hm1, <- app_assoc.
Qed.

(** X1. A run of the graph, however long and whether it returns or is cut
    off, leaves the five task slots of the state as the caller passed them
    and only appends to [messages]. *)
Theorem run_appends_messages_and_keeps_slots fuel s s' :
  state_of (invoke llm_invoke tool_executor_invoke json_dumps fuel s)
  = Some s' →
  summary s' = summary s ∧ start_time s' = start_time s ∧
  end_time s' = end_time s ∧ attendees s' = attendees s ∧
  calendar_check_result s' = calendar_check_result s ∧
  ∃ appended, messages s' = messages s ++ appended.
Proof.
  intros H. apply run_from_keeps_slots in H as ((?&?&?&?&?) & Happ).
  by repeat split.
Qed.

Lemma run_from_crash_origin fuel : ∀ n s tr e tr',
  run_from llm_invoke tool_executor_invoke json_dumps fuel n s tr
  = Crashed e tr' →
  (n = N_call_tool → messages s ≠ []) →
  (last tr' = Some N_call_model ∧
   ∃ transcript, llm_invoke transcript = Raise e) ∨
  (last tr' = Some N_call_tool ∧
   ∃ tc, tool_executor_invoke [tc] = Raise e).
Proof.
  induction fuel as [|fuel IH]; intros n s tr e tr'; [by destruct n|].
  assert (n = N_END ∨ n ≠ N_END) as [->|Hn] by (destruct n; auto).
  { by rewrite run_from_END. }
  rewrite run_from_S by done. destruct n; [| |done].
  - intros H _. destruct (llm_invoke (messages s)) as [r|e0] eqn:Hllm.
    + rewrite (step_call_model _ _ _ _ _ Hllm) in H.
      apply IH in H; [done|]. intros _. simpl. by destruct (messages s).
    + rewrite (step_call_model_raises _ _ _ _ _ Hllm) in H.
      injection H as <- <-. left. split; [by rewrite last_snoc|eauto].
  - intros H Hne.
    destruct (call_tool tool_executor_invoke json_dumps s) as [u|e0] eqn:Hcall.
    + rewrite (step_call_tool _ _ _ _ _ Hcall) in H. by apply IH in H.
    + rewrite (step_call_tool_raises _ _ _ _ _ Hcall) in H.
      injection H as <- <-. right. split; [by rewrite last_snoc|].
      unfold call_tool, last_message_of in Hcall.
      destruct (last (messages s)) as [m|] eqn:Hlast;
        [|by apply last_None in Hlast; destruct (Hne eq_refl)].
      simpl in Hcall.
      destruct (call_tool_loop _ _ _ _ _) as [[st outs]|e1] eqn:Hloop;
        simpl in Hcall; [discriminate|]. injection Hcall as ->.
      apply call_tool_loop_raise_inv in Hloop as (tc & _ & Hx). eauto.
Qed.

(** X2. A run that crashes does so on an exception of the oracle (the
    last node is the decision node) or of the tool executor (the last node
    is the execution node); the [IndexError] of [state['messages'][-1]] and
    a missing edge label never occur inside a run, whatever the input,
    an empty [messages] list included. *)
Theorem crash_comes_from_oracle_or_executor fuel s e tr :
  invoke llm_invoke tool_executor_invoke json_dumps fuel s = Crashed e tr →
  (last tr = Some N_call_model ∧
   ∃ transcript, llm_invoke transcript = Raise e) ∨
  (last tr = Some N_call_tool ∧
   ∃ tc, tool_executor_invoke [tc] = Raise e).
Proof. intros H. by apply run_from_crash_origin in H. Qed.

Lemma decisions_cons n tr :
  decisions (n :: tr) = (if is_call_model n then 1 else 0) + decisions tr.
Proof. unfold decisions. rewrite filter_cons. by destruct n. Qed.

Lemma executions_cons n tr :
  executions (n :: tr) = (if is_call_tool n then 1 else 0) + executions tr.
Proof. unfold executions. rewrite filter_cons. by destruct n. Qed.

Lemma alternates_counts trace : ∀ expected,
  alternates expected trace = true →
  last trace = Some N_call_model →
  length trace = decisions trace + executions trace ∧
  match expected with
  | N_call_model => decisions trace = S (executions trace)
  | N_call_tool => decisions trace = executions trace
  | N_END => False
  end.
Proof.
  induction trace as [|n trace IH]; intros expected Halt Hlast; [done|].
  simpl in Halt. rewrite !andb_true_iff in Halt.
  destruct Halt as [[_ Hn] Halt].
  rewrite decisions_cons, executions_cons.
  destruct trace as [|n2 trace].
  - injection Hlast as ->. by destruct expected.
  - rewrite last_cons_cons in Hlast.
    destruct (IH _ Halt Hlast) as [Hlen Hcount]. simpl length.
    destruct expected, n; try done; simpl in *; lia.
Qed.

(** X3. A run that returns to the caller has called the oracle exactly one
    time more than it has executed tool batches, and has executed nothing
    else. *)
Theorem returned_run_decides_once_more_than_it_executes fuel s s' tr :
  invoke llm_invoke tool_executor_invoke json_dumps fuel s = Halted s' tr →
  decisions tr = S (executions tr) ∧
  length tr = S (2 * executions tr).
Proof.
  intros H.
  destruct (run_from_trace llm_invoke tool_executor_invoke json_dumps fuel
              entry_point s []) as (suffix & Htr & _ & Halt).
  pose proof (invoke_halted _ _ _ _ _ _ _ H) as (_ & _ & _ & Hlast).
  unfold invoke in H. rewrite H in Htr. simpl in Htr. subst suffix.
  destruct (alternates_counts _ _ Halt Hlast) as [Hlen Hcount].
  simpl in Hcount. split; [done|lia].
Qed.

End RunFacts.

(** ** [backend/agent.py]: the flag a batch leaves *)

Section FlagFacts.
Import Agent Transcript Flag.

Variable tool_executor_invoke : list tool_call → outcome string.
Variable json_dumps : string → string.

Lemma call_tool_loop_app pre : ∀ post state outputs,
  call_tool_loop tool_executor_invoke json_dumps (pre ++ post) state outputs
  = '(state', outputs') ←
      call_tool_loop tool_executor_invoke json_dumps pre state outputs;
    call_tool_loop tool_executor_invoke json_dumps post state' outputs'.
Proof.
  induction pre as [|tc pre IH]; intros post state outputs; [done|].
  simpl. destruct (tool_executor_invoke [tc]) as [result|e]; simpl; [|done].
  apply IH.
Qed.

Lemma fold_tool_output_sets name result state :
  sets_flag name = true →
  action_needed (fold_tool_output name result state)
  = Some (flag_for name result).
Proof.
  unfold sets_flag, fold_tool_output, flag_for. intros H.
  apply orb_true_iff in H as [H|H]; apply bool_decide_eq_true in H; subst;
    by repeat case_decide.
Qed.

Lemma fold_tool_output_skips name result state :
  sets_flag name = false → fold_tool_output name result state = state.
Proof.
  unfold sets_flag. intros H. apply orb_false_iff in H as [H1 H2].
  apply bool_decide_eq_false in H1, H2. by apply fold_tool_output_other.
Qed.

Lemma call_tool_loop_skips calls : ∀ state outputs state' outputs',
  Forall (λ tc, sets_flag (tc_name tc) = false) calls →
  call_tool_loop tool_executor_invoke json_dumps calls state outputs
  = Return (state', outputs') →
  state' = state.
Proof.
  induction calls as [|tc calls IH]; intros state outputs state' outputs' Hall.
  - by intros [= <- _].
  - apply Forall_cons in Hall as [Htc Hall]. simpl.
    destruct (tool_executor_invoke [tc]) as [result|e]; simpl; [|done].
    rewrite (fold_tool_output_skips _ _ _ Htc). by apply IH.
Qed.

(** X4. The [action_needed] that [call_tool] returns for a batch is
    decided by the last request named [check_availability] or
    [book_meeting]: the requests after it do not touch the flag, the ones
    before it are overwritten.  A batch without such a request returns the
    flag the state came with. *)
Theorem last_flag_setting_call_decides state m u :
  last (messages state) = Some m →
  call_tool tool_executor_invoke json_dumps state = Return u →
  (∀ pre tc post result,
     requested_actions m = pre ++ tc :: post →
     sets_flag (tc_name tc) = true →
     Forall (λ tc', sets_flag (tc_name tc') = false) post →
     tool_executor_invoke [tc] = Return result →
     upd_action_needed u = Some (Some (flag_for (tc_name tc) result)))
  ∧
  (Forall (λ tc, sets_flag (tc_name tc) = false) (requested_actions m) →
   upd_action_needed u = Some (action_needed state)).
Proof.
  intros Hlast Hcall.
  apply call_tool_returns in Hcall as (m' & st & outs & Hlast' & Hloop & ->).
  assert (m' = m) as -> by congruence. simpl. split.
  - intros pre tc post result Hreq Hflag Hpost Hx.
    rewrite Hreq, call_tool_loop_app in Hloop.
    destruct (call_tool_loop _ _ pre state []) as [[st1 outs1]|e];
      simpl in Hloop; [|discriminate].
    rewrite Hx in Hloop. simpl in Hloop.
    apply (call_tool_loop_skips _ _ _ _ _ Hpost) in Hloop. subst st.
    by rewrite (fold_tool_output_sets _ _ _ Hflag).
  - intros Hall. by rewrite (call_tool_loop_skips _ _ _ _ _ Hall Hloop).
Qed.

End FlagFacts.

(** ** A failed availability check seen by the execution node *)

Section ErrorTextFacts.
Import Tools Failure Agent Flag.

Variable get_calendar_service : outcome calendar_service.
Variable datetime : Type.
Variable fromisoformat : string → outcome datetime.
Variable isoformat : datetime → string.

Lemma error_text_mentions_free text :
  contains "free"
    (lower ("An error occurred while checking availability: " +:+ text))
  = contains "free" (lower text).
Proof. reflexivity. Qed.

(** X5. When the availability check has turned an [HttpError] into its
    error text, the execution node classifies that text by the same
    substring test as any other: it leaves [action_needed] at
    ["propose_slots"], the value for a free calendar, exactly when the
    error's own text contains "free" in any letter case, and at
    ["ask_for_new_time"] otherwise. *)
Theorem http_error_text_is_classified_by_free start_time end_time text state :
  check_collaborator_raises get_calendar_service fromisoformat isoformat
    start_time end_time (HttpError text) →
  ∃ payload,
    check_calendar_availability get_calendar_service fromisoformat isoformat
      start_time end_time = Return payload ∧
    action_needed (fold_tool_output "check_availability" payload state)
    = Some (if contains "free" (lower text)
            then "propose_slots" else "ask_for_new_time").
Proof.
  intros H.
  destruct (tools_catch_HttpError_only get_calendar_service datetime
              fromisoformat isoformat text) as (Hcheck & _).
  eexists. split; [by apply Hcheck|].
  by rewrite fold_tool_output_check, error_text_mentions_free.
Qed.

End ErrorTextFacts.

(** ** [backend/tools.py]: what the two tools return and raise *)

Section MoreToolsFacts.
Import Tools Failure.

Variable get_calendar_service : outcome calendar_service.
Variable datetime : Type.
Variable fromisoformat : string → outcome datetime.
Variable isoformat : datetime → string.

(** X6. Whenever the availability check returns, its text has one of three
    shapes: the "free" sentence, the "busy" sentence listing at least one
    interval, or the error sentence of a caught [HttpError]. *)
Theorem check_calendar_availability_text_shapes start_time end_time text :
  check_calendar_availability get_calendar_service fromisoformat isoformat
    start_time end_time = Return text →
  text = "The calendar is free during this time." ∨
  (∃ slot slots,
     text = "The calendar is busy during the following times: "
            +:+ join ", " (map busy_text (slot :: slots))
            +:+ ". Please suggest a different time.") ∨
  (∃ error,
     text = "An error occurred while checking availability: " +:+ error).
Proof.
  unfold check_calendar_availability, check_calendar_availability_try.
  destruct get_calendar_service as [service|e]; simpl.
  2: { destruct e; simpl; intros [= <-] || discriminate. eauto. }
  destruct (calendars_get service "primary") as [info|e]; simpl.
  2: { destruct e; simpl; intros [= <-] || discriminate. eauto. }
  destruct (fromisoformat start_time) as [d1|e]; simpl.
  2: { destruct e; simpl; intros [= <-] || discriminate. eauto. }
  destruct (fromisoformat end_time) as [d2|e]; simpl.
  2: { destruct e; simpl; intros [= <-] || discriminate. eauto. }
  destruct (freebusy_query service _) as [response|e]; simpl.
  2: { destruct e; simpl; intros [= <-] || discriminate. eauto. }
  unfold getitem. destruct (response !! "primary") as [busy|]; simpl;
    [|discriminate].
  destruct busy as [|slot slots]; simpl; intros [= <-]; eauto.
Qed.

(** X7. The handler of the availability check is for [HttpError] alone:
    once the client and the calendar info are there, a start or end
    timestamp that [fromisoformat] rejects with a [ValueError], and a
    free/busy answer without an entry for the primary calendar
    ([KeyError]), come out of the tool as exceptions. *)
Theorem check_calendar_availability_raises_past_handler
    start_time end_time service info :
  get_calendar_service = Return service →
  calendars_get service "primary" = Return info →
  (∀ reason,
     fromisoformat start_time = Raise (ValueError reason) →
     check_calendar_availability get_calendar_service fromisoformat isoformat
       start_time end_time = Raise (ValueError reason))
  ∧
  (∀ start reason,
     fromisoformat start_time = Return start →
     fromisoformat end_time = Raise (ValueError reason) →
     check_calendar_availability get_calendar_service fromisoformat isoformat
       start_time end_time = Raise (ValueError reason))
  ∧
  (∀ start end_ response,
     fromisoformat start_time = Return start →
     fromisoformat end_time = Return end_ →
     freebusy_query service
       {| timeMin := isoformat start; timeMax := isoformat end_;
          timeZone := default "UTC" (info !! "timeZone");
          items := ["primary"] |} = Return response →
     response !! "primary" = None →
     check_calendar_availability get_calendar_service fromisoformat isoformat
       start_time end_time = Raise (KeyError "primary")).
Proof.
  intros Hs Hi.
  unfold check_calendar_availability, check_calendar_availability_try.
  rewrite Hs; simpl. rewrite Hi; simpl. split; [|split].
  - by intros reason ->.
  - intros start reason -> H2. simpl. by rewrite H2.
  - intros start end_ response -> H2 Hq Hr. simpl. rewrite H2; simpl.
    rewrite Hq; simpl. unfold getitem. by rewrite Hr.
Qed.

(** X8. When the client is there and the insert succeeds, the event
    creation asks the primary calendar for an event with both times in
    zone "Asia/Kolkata", an e-mail reminder a day ahead and a popup ten
    minutes ahead, and with an attendee list only if one with at least one
    address was given; it answers "Event created: " followed by the
    created event's [htmlLink], or by "None" when the created event has no
    such key. *)
Theorem create_google_calendar_event_success
    summary start_time end_time description attendees service created :
  get_calendar_service = Return service →
  events_insert service "primary"
    {| ev_summary := summary;
       ev_description := description;
       ev_start := {| dateTime := start_time; ev_timeZone := "Asia/Kolkata" |};
       ev_end := {| dateTime := end_time; ev_timeZone := "Asia/Kolkata" |};
       ev_useDefault := false;
       ev_overrides := [ {| method := "email"; minutes := 1440 |};
                         {| method := "popup"; minutes := 10 |} ];
       ev_attendees := match attendees with
                       | Some (a :: l) => Some (a :: l)
                       | _ => None
                       end |} = Return created →
  create_google_calendar_event get_calendar_service summary start_time
    end_time description attendees
  = Return ("Event created: "
            +:+ match created !! "htmlLink" with
                | Some link => link
                | None => "None"
                end).
Proof.
  intros Hs Hins.
  unfold create_google_calendar_event, create_google_calendar_event_try.
  rewrite Hs; simpl.
  replace (new_event summary start_time end_time description attendees)
    with {| ev_summary := summary;
            ev_description := description;
            ev_start := {| dateTime := start_time;
                           ev_timeZone := "Asia/Kolkata" |};
            ev_end := {| dateTime := end_time; ev_timeZone := "Asia/Kolkata" |};
            ev_useDefault := false;
            ev_overrides := [ {| method := "email"; minutes := 1440 |};
                              {| method := "popup"; minutes := 10 |} ];
            ev_attendees := match attendees with
                            | Some (a :: l) => Some (a :: l)
                            | _ => None
                            end |}
    by (by destruct attendees as [[|a l]|]).
  rewrite Hins. reflexivity.
Qed.

End MoreToolsFacts.

(** ** [backend/tools.py]: [get_calendar_service] *)

Section AuthFacts.
Import Tools Auth.

Variable from_authorized_user_file : string → outcome credentials.
Variable refresh : credentials → outcome credentials.
Variable run_local_server : outcome credentials.
Variable build : credentials → outcome calendar_service.

(** the ways [get_calendar_service] can go *)
Lemma get_calendar_service_cases w :
  (∃ e, load_token from_authorized_user_file w = Raise e ∧
        get_calendar_service from_authorized_user_file refresh
          run_local_server build w = (w, Raise e))
  ∨
  (∃ creds c, load_token from_authorized_user_file w = Return creds ∧
        usable creds = Some c ∧
        get_calendar_service from_authorized_user_file refresh
          run_local_server build w = (w, build c))
  ∨
  (∃ creds attempt fresh,
        load_token from_authorized_user_file w = Return creds ∧
        usable creds = None ∧
        match refreshable creds with
        | Some c => attempt = ev_refresh ∧ fresh = refresh c
        | None => attempt = ev_consent_flow ∧ fresh = run_local_server
        end ∧
        get_calendar_service from_authorized_user_file refresh
          run_local_server build w
        = match fresh with
          | Raise e => (record_event attempt w, Raise e)
          | Return c =>
              (write_token (to_json c) (record_event attempt w), build c)
          end).
Proof.
  unfold get_calendar_service.
  destruct (load_token from_authorized_user_file w) as [creds|e];
    [|left; eauto].
  right. destruct (usable creds) as [c|] eqn:Huse; [left; eauto|].
  right. destruct (refreshable creds) as [c|] eqn:Hre.
  - exists creds, ev_refresh, (refresh c). rewrite Hre.
    by repeat split.
  - exists creds, ev_consent_flow, run_local_server. rewrite Hre.
    by repeat split.
Qed.

Lemma get_calendar_service_usable w text creds :
  token_json w = Some text →
  from_authorized_user_file text = Return creds →
  valid creds = true →
  get_calendar_service from_authorized_user_file refresh run_local_server
    build w = (w, build creds).
Proof.
  intros Htok Hparse Hvalid. unfold get_calendar_service, load_token.
  rewrite Htok, Hparse. simpl. by rewrite Hvalid.
Qed.

(** X9. With a [token.json] that parses into valid credentials the client
    is built from exactly those, whatever their other attributes say:
    nothing is refreshed, no consent flow is started, the file is not
    written and no event is added. *)
Theorem valid_token_is_used_untouched w text creds :
  token_json w = Some text →
  from_authorized_user_file text = Return creds →
  valid creds = true →
  ∃ w',
    get_calendar_service from_authorized_user_file refresh run_local_server
      build w = (w', build creds) ∧
    token_json w' = Some text ∧ events w' = events w.
Proof.
  intros Htok Hparse Hvalid. exists w.
  by rewrite (get_calendar_service_usable _ _ _ Htok Hparse Hvalid).
Qed.

(** X10. [get_calendar_service] only ever adds to what happened before;
    it changes [token.json] in one way only, by writing the JSON of the
    very credentials it then builds the client from, as its last act; and
    whenever it returns a client, [token.json] exists afterwards. *)
Theorem token_file_changes_only_by_saving_fresh_credentials w w' r :
  get_calendar_service from_authorized_user_file refresh run_local_server
    build w = (w', r) →
  (∃ new_events, events w' = events w ++ new_events) ∧
  (token_json w' ≠ token_json w →
   ∃ creds,
     token_json w' = Some (to_json creds) ∧
     r = build creds ∧
     last (events w') = Some (ev_write (to_json creds))) ∧
  (returns r = true → is_Some (token_json w')).
Proof.
  intros H.
  destruct (get_calendar_service_cases w)
    as [(e & _ & Hg) | [(creds & c & Hload & Huse & Hg)
                       | (creds & attempt & fresh & _ & _ & _ & Hg)]];
    rewrite Hg in H.
  - injection H as <- <-. split; [exists []; by rewrite app_nil_r|].
    split; [done|done].
  - injection H as <- <-. split; [exists []; by rewrite app_nil_r|].
    split; [done|]. intros _.
    unfold load_token in Hload. destruct (token_json w); [done|].
    injection Hload as <-. done.
  - destruct fresh as [c|e]; injection H as <- <-.
    + split; [simpl; rewrite <- app_assoc; eauto|]. split; [|by eauto].
      intros _. exists c. split; [done|]. split; [done|].
      simpl. by rewrite last_snoc.
    + split; [simpl; eauto|]. split; [done|done].
Qed.

(** X11. Which login is tried when the stored credentials cannot be used
    as they are: expired credentials that carry a refresh token are
    refreshed and nothing else, so a failing refresh is the failure of the
    call, with [token.json] as it was and no consent flow; in every other
    case (no file, not expired, no or empty refresh token) the consent
    flow runs. *)
Theorem refresh_or_consent_flow w :
  (∀ text creds e,
     token_json w = Some text →
     from_authorized_user_file text = Return creds →
     valid creds = false → expired creds = true →
     truthy_str (refresh_token creds) = true →
     refresh creds = Raise e →
     get_calendar_service from_authorized_user_file refresh
       run_local_server build w
     = ({| token_json := Some text; events := events w ++ [ev_refresh] |},
        Raise e))
  ∧
  (∀ fresh,
     run_local_server = Return fresh →
     (token_json w = None ∨
      ∃ text creds,
        token_json w = Some text ∧
        from_authorized_user_file text = Return creds ∧
        valid creds = false ∧
        (expired creds = false ∨
         truthy_str (refresh_token creds) = false)) →
     get_calendar_service from_authorized_user_file refresh
       run_local_server build w
     = ({| token_json := Some (to_json fresh);
           events := events w ++ [ev_consent_flow; ev_write (to_json fresh)] |},
        build fresh)).
Proof.
  split.
  - intros text creds e Htok Hparse Hvalid Hexp Hrt Hrefresh.
    unfold get_calendar_service, load_token. rewrite Htok, Hparse. simpl.
    rewrite Hvalid, Hexp, Hrt. simpl. rewrite Hrefresh.
    unfold record_event. by rewrite Htok.
  - intros fresh Hflow Hcase.
    unfold get_calendar_service, load_token.
    destruct Hcase as [Htok | (text & creds & Htok & Hparse & Hvalid & Hno)];
      rewrite Htok; [|rewrite Hparse]; simpl.
    + rewrite Hflow. unfold write_token. simpl. by rewrite <- app_assoc.
    + rewrite Hvalid.
      assert (expired creds && truthy_str (refresh_token creds) = false)
        as -> by (destruct Hno as [-> | ->]; [done|apply andb_false_r]).
      rewrite Hflow. unfold write_token. simpl. by rewrite <- app_assoc.
Qed.

(** X12. If refreshed or newly granted credentials are valid and their
    JSON, once written to [token.json], parses back into them, then a call
    that follows a successful call finds the saved token usable: it builds
    the same client and neither logs in nor writes again. *)
Theorem second_call_reuses_saved_token w w1 service :
  (∀ c c', refresh c = Return c' →
           valid c' = true ∧
           from_authorized_user_file (to_json c') = Return c') →
  (∀ c, run_local_server = Return c →
        valid c = true ∧ from_authorized_user_file (to_json c) = Return c) →
  get_calendar_service from_authorized_user_file refresh run_local_server
    build w = (w1, Return service) →
  get_calendar_service from_authorized_user_file refresh run_local_server
    build w1 = (w1, Return service).
Proof.
  intros Hrefresh Hflow H.
  destruct (get_calendar_service_cases w)
    as [(e & _ & Hg) | [(creds & c & Hload & Huse & Hg)
                       | (creds & attempt & fresh & _ & _ & Hkind & Hg)]];
    rewrite Hg in H.
  - by injection H.
  - injection H as <- Hb. by rewrite Hg, Hb.
  - destruct fresh as [c|e]; [|by injection H].
    injection H as <- Hb.
    assert (valid c = true ∧ from_authorized_user_file (to_json c) = Return c)
      as [Hvalid Hparse].
    { destruct (refreshable creds) as [c0|]; destruct Hkind as [_ Hf];
        [by eapply Hrefresh|by apply Hflow]. }
    rewrite <- Hb. by apply (get_calendar_service_usable _ (to_json c)).
Qed.

End AuthFacts.

(** ** [backend/main.py]: the [/chat] endpoint *)

Section MainApiFacts.
Import Agent Transcript MainApi.

Variable parsed_call : Type.
Variable tool_calls_of : message → list parsed_call.
Variable astream_events :
  list message → string → outcome (list stream_event).
Variable repr : string → string.

Lemma find_skips {A} (f : A → bool) skipped rest :
  Forall (λ x, f x = false) skipped →
  find f (skipped ++ rest) = find f rest.
Proof.
  induction 1 as [|x skipped Hx _ IH]; [done|]. simpl. by rewrite Hx.
Qed.

Lemma first_ai_of_reversed pre m post :
  is_ai m = true →
  Forall (λ x, is_ai x = false) post →
  first_ai (rev (pre ++ m :: post)) = Some m.
Proof.
  intros Hm Hpost. unfold first_ai.
  rewrite rev_app_distr. simpl. rewrite <- !app_assoc.
  rewrite find_skips by (by apply Forall_rev). simpl. by rewrite Hm.
Qed.

Lemma first_ai_none msgs :
  Forall (λ x, is_ai x = false) msgs → first_ai (rev msgs) = None.
Proof.
  intros H. unfold first_ai.
  rewrite <- (app_nil_r (rev msgs)), find_skips; [done|by apply Forall_rev].
Qed.

Lemma ai_response_message_lookup state msgs :
  state !! "messages" = Some msgs →
  ai_response_message (Some state) = first_ai (rev msgs).
Proof. unfold ai_response_message. intros ->. by destruct msgs. Qed.

Lemma last_chain_end_app pre post :
  last_chain_end (pre ++ post)
  = fold_left
      (λ final_state ev,
         if decide (event ev = "on_chain_end") then data_output ev
         else final_state)
      post (last_chain_end pre).
Proof. unfold last_chain_end. apply fold_left_app. Qed.

Lemma fold_left_no_chain_end post : ∀ init,
  Forall (λ ev, event ev ≠ "on_chain_end") post →
  fold_left
    (λ final_state ev,
       if decide (event ev = "on_chain_end") then data_output ev
       else final_state)
    post init = init.
Proof.
  induction post as [|ev post IH]; intros init Hall; [done|].
  apply Forall_cons in Hall as [Hev Hall]. simpl.
  rewrite decide_False by done. by apply IH.
Qed.

(** X13. Of the events of a stream only the last one named
    ["on_chain_end"] counts: its output is the final state the endpoint
    goes on with, whatever came before and whatever other events follow;
    a stream without such an event leaves no final state. *)
Theorem last_chain_end_event_wins stream :
  (∀ pre ev post,
     stream = pre ++ ev :: post →
     event ev = "on_chain_end" →
     Forall (λ ev', event ev' ≠ "on_chain_end") post →
     last_chain_end stream = data_output ev)
  ∧
  (Forall (λ ev, event ev ≠ "on_chain_end") stream →
   last_chain_end stream = None).
Proof.
  split.
  - intros pre ev post -> Hev Hpost.
    rewrite last_chain_end_app. simpl. rewrite decide_True by done.
    by apply fold_left_no_chain_end.
  - intros Hall. by apply (fold_left_no_chain_end stream None).
Qed.

Lemma chat_endpoint_last_assistant request stream state pre m post :
  astream_events [HumanMessage (req_message request)] (req_user_id request)
  = Return stream →
  last_chain_end stream = Some state →
  state !! "messages" = Some (pre ++ m :: post) →
  is_ai m = true →
  Forall (λ later, is_ai later = false) post →
  chat_endpoint parsed_call tool_calls_of astream_events repr request
  = Ok200 {| response := content m;
             thread_id := req_user_id request;
             tool_calls := tool_calls_or_raw parsed_call tool_calls_of m |}.
Proof.
  intros Hstream Hfinal Hmsgs Hm Hpost. unfold chat_endpoint.
  rewrite Hstream, Hfinal. unfold respond.
  by rewrite (ai_response_message_lookup _ _ Hmsgs),
    (first_ai_of_reversed _ _ _ Hm Hpost).
Qed.

(** X14. When the stream ends without an exception and the final state
    holds an assistant message, the endpoint answers 200 with the content
    of the last assistant message of the final state, the user id as
    thread id, and as tool calls the message's parsed calls when there are
    any, else the raw list under ["tool_calls"] (an empty one too), else
    nothing. *)
Theorem chat_endpoint_answers_with_last_assistant_message
    request stream state pre m post :
  astream_events [HumanMessage (req_message request)] (req_user_id request)
  = Return stream →
  last_chain_end stream = Some state →
  state !! "messages" = Some (pre ++ m :: post) →
  is_ai m = true →
  Forall (λ later, is_ai later = false) post →
  chat_endpoint parsed_call tool_calls_of astream_events repr request
  = Ok200 {| response := content m;
             thread_id := req_user_id request;
             tool_calls :=
               match tool_calls_of m with
               | c :: calls => parsed_calls (c :: calls)
               | [] =>
                   match additional_kwargs m !! "tool_calls" with
                   | Some raw => raw_calls raw
                   | None => no_calls
                   end
               end |}.
Proof.
  intros Hstream Hfinal Hmsgs Hm Hpost.
  by rewrite (chat_endpoint_last_assistant _ _ _ _ _ _
                Hstream Hfinal Hmsgs Hm Hpost).
Qed.

(** X15. When the stream ends without an exception but leaves no assistant
    message to answer with (no final state, no ["messages"] in it, an
    empty list, or only user and tool messages), the endpoint still
    answers 200, with the fixed sentence "The agent did not return a
    direct message. This might be a tool call." and no tool calls. *)
Theorem chat_endpoint_falls_back_without_assistant_message request stream :
  astream_events [HumanMessage (req_message request)] (req_user_id request)
  = Return stream →
  (∀ state msgs,
     last_chain_end stream = Some state →
     state !! "messages" = Some msgs →
     Forall (λ msg, is_ai msg = false) msgs) →
  chat_endpoint parsed_call tool_calls_of astream_events repr request
  = Ok200 {| response :=
               "The agent did not return a direct message. This might be a tool call.";
             thread_id := req_user_id request;
             tool_calls := no_calls |}.
Proof.
  intros Hstream Hnone. unfold chat_endpoint. rewrite Hstream.
  unfold respond.
  destruct (last_chain_end stream) as [state|] eqn:Hfinal; [|done].
  destruct (state !! "messages") as [msgs|] eqn:Hmsgs.
  - by rewrite (ai_response_message_lookup _ _ Hmsgs),
      (first_ai_none _ (Hnone _ _ eq_refl Hmsgs)).
  - unfold ai_response_message. by rewrite Hmsgs.
Qed.

Variable llm_invoke : list message → outcome ai_reply.
Variable tool_executor_invoke : list tool_call → outcome string.
Variable json_dumps : string → string.

(** X16. If the final state that the stream delivers is the state in which
    a run of the agent graph returned, the endpoint's answer is the text
    of the oracle's last reply, the one without the ["tool_calls"] key:
    raw tool calls never reach the response. *)
Theorem chat_endpoint_answers_with_final_reply_of_run
    request stream state fuel inputs s' tr :
  astream_events [HumanMessage (req_message request)] (req_user_id request)
  = Return stream →
  last_chain_end stream = Some state →
  state !! "messages" = Some (messages s') →
  invoke llm_invoke tool_executor_invoke json_dumps fuel inputs
  = Halted s' tr →
  ∃ m,
    last (messages s') = Some m ∧
    msg_type m = ai ∧
    additional_kwargs m !! "tool_calls" = None ∧
    chat_endpoint parsed_call tool_calls_of astream_events repr request
    = Ok200 {| response := content m;
               thread_id := req_user_id request;
               tool_calls :=
                 match tool_calls_of m with
                 | c :: calls => parsed_calls (c :: calls)
                 | [] => no_calls
                 end |}.
Proof.
  intros Hstream Hfinal Hmsgs Hrun.
  apply invoke_halted in Hrun as (appended & Hm & Htt & _).
  destruct (transcript_last _ Htt) as (m & Hlast & Hai & Hkey).
  assert (Hl : last (messages s') = Some m) by (by rewrite Hm, last_app, Hlast).
  exists m. repeat split; try done.
  apply last_Some in Hl as [pre Hpre]. rewrite Hpre in Hmsgs.
  rewrite (chat_endpoint_last_assistant
             request stream state pre m [] Hstream Hfinal Hmsgs);
    [|by unfold is_ai; rewrite Hai|done].
  unfold tool_calls_or_raw. by rewrite Hkey.
Qed.

End MainApiFacts.

(** ** [frontend/app.py] *)

Section FrontendFacts.
Import Frontend.

Variable uuid4 : string.
Variable post : string → payload → outcome http_response.
Variable is_ConnectionError : exn → bool.
Variable is_RequestException : exn → bool.
Variable str : exn → string.

(** X17. Whatever the prompt and whatever the backend does, a run of the
    script leaves a user id in the session: the one that was there, or a
    fresh uuid when there was none; so every later run sends the same
    id. *)
Theorem user_id_is_created_once prompt st st' ui ending :
  run_script uuid4 post is_ConnectionError is_RequestException str prompt st
  = (st', ui, ending) →
  user_id st' = Some (default uuid4 (user_id st)) ∧
  ∀ prompt2 st2 ui2 ending2,
    run_script uuid4 post is_ConnectionError is_RequestException str
      prompt2 st' = (st2, ui2, ending2) →
    user_id st2 = user_id st'.
Proof.
  assert (Hone : ∀ p s s1 u1 e1,
            run_script uuid4 post is_ConnectionError is_RequestException str
              p s = (s1, u1, e1) →
            user_id s1 = Some (default uuid4 (user_id s))).
  { intros p s s1 u1 e1. unfold run_script.
    destruct p as [[|c rest]|]; try by intros [= <- _ _].
    destruct (ask_backend _ _) as [resp|e]; [by intros [= <- _ _]|].
    destruct (is_ConnectionError e); [by intros [= <- _ _]|].
    destruct (is_RequestException e); by intros [= <- _ _]. }
  intros H. pose proof (Hone _ _ _ _ _ H) as Hid. split; [done|].
  intros prompt2 st2 ui2 ending2 H2.
  rewrite (Hone _ _ _ _ _ H2), Hid. done.
Qed.

(** X18. A run of the script shows the stored history first, in order, and
    only appends to it: nothing without a prompt (an empty one included);
    the user's entry and the assistant's entry after an answered request;
    the user's entry alone when the request fails, in which case an error
    is shown and the script stops if the exception is a
    [RequestException], and the exception escapes otherwise. *)
Theorem history_grows_by_the_exchange prompt st st' ui ending :
  run_script uuid4 post is_ConnectionError is_RequestException str prompt st
  = (st', ui, ending) →
  ∃ added shown,
    messages st' = Some (default [] (messages st) ++ added) ∧
    ui = map show (default [] (messages st)) ++ shown ∧
    match prompt with
    | None | Some "" => added = [] ∧ shown = [] ∧ ending = finished
    | Some text =>
        match ask_backend post
                {| p_user_id := default uuid4 (user_id st);
                   p_message := text |} with
        | Return agent_response =>
            ∃ reply,
              reply = default
                        "Sorry, I couldn't process that. Can you please rephrase?"
                        (agent_response !! "response") ∧
              added = [ {| role := "user"; entry_content := text |};
                        {| role := "assistant"; entry_content := reply |} ] ∧
              shown = [chat_message "user" text;
                       chat_message "assistant" reply] ∧
              thread_id st' = Some (agent_response !! "thread_id") ∧
              ending = finished
        | Raise e =>
            added = [ {| role := "user"; entry_content := text |} ] ∧
            (if is_ConnectionError e || is_RequestException e
             then ending = stopped ∧
                  ∃ text', shown = [chat_message "user" text; error text']
             else ending = uncaught e ∧ shown = [chat_message "user" text])
        end
    end.
Proof.
  unfold run_script, append_entry, set_thread_id, initialize, history.
  destruct prompt as [[|c rest]|]; simpl.
  - intros [= <- <- <-]. exists [], []. by rewrite !app_nil_r.
  - destruct (ask_backend _ _) as [resp|e].
    + intros [= <- <- <-]. simpl. eexists _, _.
      split; [by rewrite <- app_assoc|]. split; [by rewrite <- app_assoc|].
      by eexists.
    + destruct (is_ConnectionError e); simpl.
      { intros [= <- <- <-]. simpl. eexists _, _.
        split; [done|]. split; [by rewrite <- app_assoc|]. eauto. }
      destruct (is_RequestException e).
      { intros [= <- <- <-]. simpl. eexists _, _.
        split; [done|]. split; [by rewrite <- app_assoc|]. eauto. }
      intros [= <- <- <-]. simpl. eexists _, _. by repeat split.
  - intros [= <- <- <-]. exists [], []. by rewrite !app_nil_r.
Qed.

Variable parsed_call : Type.
Variable tool_calls_of : Agent.message → list parsed_call.
Variable astream_events :
  list Agent.message → string → outcome (list MainApi.stream_event).
Variable repr : string → string.

(** X19. The script and the endpoint put together: when the backend's
    answer to the request is the JSON of the endpoint's 200 response for
    the same user id and message, the exchange ends with the thread id of
    the session equal to its user id, and with the endpoint's response
    text as the assistant's entry, the last of the history. *)
Theorem thread_id_comes_back_as_user_id text st st' ui ending body json :
  text ≠ "" →
  MainApi.chat_endpoint parsed_call tool_calls_of astream_events repr
    {| MainApi.req_user_id := default uuid4 (user_id st);
       MainApi.req_message := text |} = MainApi.Ok200 body →
  ask_backend post
    {| p_user_id := default uuid4 (user_id st); p_message := text |}
  = Return json →
  json !! "response" = Some (MainApi.response body) →
  json !! "thread_id" = Some (MainApi.thread_id body) →
  run_script uuid4 post is_ConnectionError is_RequestException str
    (Some text) st = (st', ui, ending) →
  ending = finished ∧
  thread_id st' = Some (user_id st') ∧
  last (default [] (messages st'))
  = Some {| role := "assistant"; entry_content := MainApi.response body |}.
Proof.
  intros Htext Hendpoint Hask Hresp Hthread.
  assert (MainApi.thread_id body = default uuid4 (user_id st)) as Hid.
  { unfold MainApi.chat_endpoint in Hendpoint. simpl in Hendpoint.
    destruct (astream_events _ _) as [stream|e]; [|discriminate].
    injection Hendpoint as <-. unfold MainApi.respond.
    by destruct (MainApi.ai_response_message _). }
  unfold run_script, append_entry, set_thread_id, initialize, history.
  destruct text as [|c rest]; [done|]. simpl. rewrite Hask.
  intros [= <- <- <-]. simpl. rewrite Hresp, Hthread, Hid. simpl.
  split; [done|]. split; [done|]. by rewrite last_snoc.
Qed.

End FrontendFacts.

(** ** The further properties on the sample collaborators *)

Section MoreWitnesses.
Import Tools Failure Agent Transcript Flag Samples MoreSamples.

Lemma run_appends_messages_and_keeps_slots_witness :
  state_of (invoke (llm_once [tc_check]) exec_free dumps_plain 5 first_turn)
  = Some checked_and_answered
  ∧ calendar_check_result checked_and_answered
    = calendar_check_result first_turn
  ∧ ∃ appended,
      messages checked_and_answered = messages first_turn ++ appended.
Proof.
  assert (Hrun : state_of (invoke (llm_once [tc_check]) exec_free dumps_plain
                             5 first_turn) = Some checked_and_answered)
    by (vm_compute; reflexivity).
  destruct (run_appends_messages_and_keeps_slots _ _ _ _ _ _ Hrun)
    as (_ & _ & _ & _ & Hres & Happ).
  by repeat split.
Defined.

Lemma crash_comes_from_oracle_or_executor_witness :
  invoke (llm_once [tc_delete]) exec_strict dumps_plain 5 first_turn
  = Crashed (KeyError "delete_event") [N_call_model; N_call_tool]
  ∧
  ((last [N_call_model; N_call_tool] = Some N_call_model ∧
    ∃ transcript,
      llm_once [tc_delete] transcript = Raise (KeyError "delete_event")) ∨
   (last [N_call_model; N_call_tool] = Some N_call_tool ∧
    ∃ tc, exec_strict [tc] = Raise (KeyError "delete_event"))).
Proof.
  assert (Hrun : invoke (llm_once [tc_delete]) exec_strict dumps_plain 5
                   first_turn
                 = Crashed (KeyError "delete_event")
                     [N_call_model; N_call_tool])
    by (vm_compute; reflexivity).
  split; [exact Hrun|].
  exact (crash_comes_from_oracle_or_executor _ _ _ _ _ _ _ Hrun).
Defined.

Lemma returned_run_decides_once_more_than_it_executes_witness :
  decisions [N_call_model; N_call_tool; N_call_model]
  = S (executions [N_call_model; N_call_tool; N_call_model])
  ∧ length [N_call_model; N_call_tool; N_call_model]
    = S (2 * executions [N_call_model; N_call_tool; N_call_model]).
Proof.
  apply (returned_run_decides_once_more_than_it_executes
           (llm_once [tc_check]) exec_free dumps_plain 5 first_turn
           checked_and_answered).
  vm_compute. reflexivity.
Defined.

Lemma last_flag_setting_call_decides_witness :
  (∃ u,
     call_tool exec_free dumps_plain (asked [tc_check; tc_book; tc_now])
     = Return u ∧
     upd_action_needed u = Some (Some "confirm_booking"))
  ∧
  (∃ u,
     call_tool exec_free dumps_plain (asked [tc_now]) = Return u ∧
     upd_action_needed u = Some None).
Proof.
  split.
  - eexists. split; [reflexivity|].
    refine (proj1 (last_flag_setting_call_decides exec_free dumps_plain
                     (asked [tc_check; tc_book; tc_now])
                     (response_of (wants [tc_check; tc_book; tc_now])) _
                     eq_refl eq_refl)
              [tc_check] tc_book [tc_now] free_text eq_refl eq_refl _ eq_refl).
    repeat constructor.
  - eexists. split; [reflexivity|].
    refine (proj2 (last_flag_setting_call_decides exec_free dumps_plain
                     (asked [tc_now]) (response_of (wants [tc_now])) _
                     eq_refl eq_refl) _).
    repeat constructor.
Defined.

Lemma http_error_text_is_classified_by_free_witness :
  ∃ payload,
    check_calendar_availability (Return svc_refused) fromisoformat_text
      isoformat_text t10 t11 = Return payload ∧
    action_needed
      (fold_tool_output "check_availability" payload (asked [tc_check]))
    = Some "propose_slots".
Proof.
  apply (http_error_text_is_classified_by_free (Return svc_refused) string
           fromisoformat_text isoformat_text t10 t11 refused_text
           (asked [tc_check])).
  right. exists svc_refused. split; [reflexivity|]. right.
  exists {[ "timeZone" := "Asia/Kolkata" ]}, t10, t11.
  repeat split; reflexivity.
Defined.

Lemma check_calendar_availability_text_shapes_witness :
  ∃ text,
    check_calendar_availability (Return svc_busy) fromisoformat_text
      isoformat_text t10 t11 = Return text ∧
    (text = "The calendar is free during this time." ∨
     (∃ slot slots,
        text = "The calendar is busy during the following times: "
               +:+ join ", " (map busy_text (slot :: slots))
               +:+ ". Please suggest a different time.") ∨
     (∃ error,
        text = "An error occurred while checking availability: " +:+ error)).
Proof.
  eexists. split; [reflexivity|].
  apply (check_calendar_availability_text_shapes (Return svc_busy) string
           fromisoformat_text isoformat_text t10 t11).
  reflexivity.
Defined.

Lemma check_calendar_availability_raises_past_handler_witness :
  check_calendar_availability (Return svc_free) fromisoformat_text
    isoformat_text "" t11
  = Raise (ValueError "Invalid isoformat string")
  ∧
  check_calendar_availability (Return svc_free) fromisoformat_text
    isoformat_text t10 ""
  = Raise (ValueError "Invalid isoformat string")
  ∧
  check_calendar_availability (Return svc_no_primary) fromisoformat_text
    isoformat_text t10 t11
  = Raise (KeyError "primary").
Proof.
  split; [|split].
  - apply (proj1 (check_calendar_availability_raises_past_handler
                    (Return svc_free) string fromisoformat_text
                    isoformat_text "" t11 svc_free
                    {[ "timeZone" := "Asia/Kolkata" ]} eq_refl eq_refl)).
    reflexivity.
  - apply (proj1 (proj2 (check_calendar_availability_raises_past_handler
                    (Return svc_free) string fromisoformat_text
                    isoformat_text t10 "" svc_free
                    {[ "timeZone" := "Asia/Kolkata" ]} eq_refl eq_refl))
             t10); reflexivity.
  - apply (proj2 (proj2 (check_calendar_availability_raises_past_handler
                    (Return svc_no_primary) string fromisoformat_text
                    isoformat_text t10 t11 svc_no_primary
                    {[ "timeZone" := "Asia/Kolkata" ]} eq_refl eq_refl))
             t10 t11 ∅); reflexivity.
Defined.

Lemma create_google_calendar_event_success_witness :
  create_google_calendar_event (Return svc_free) "Call" t10 t11 ""
    (Some [])
  = Return ("Event created: " +:+ "https://calendar.example/event/1").
Proof.
  rewrite (create_google_calendar_event_success (Return svc_free) "Call" t10
             t11 "" (Some []) svc_free
             {[ "htmlLink" := "https://calendar.example/event/1" ]}
             eq_refl eq_refl).
  reflexivity.
Defined.

Lemma valid_token_is_used_untouched_witness :
  ∃ w',
    Auth.get_calendar_service parse_token refresh_revoked
      (Raise (OtherError "FileNotFoundError" "credentials.json")) build_free
      fresh_token = (w', Return svc_free) ∧
    Auth.token_json w' = Some "{token: fresh}" ∧
    Auth.events w' = [].
Proof.
  exact (valid_token_is_used_untouched parse_token refresh_revoked
           (Raise (OtherError "FileNotFoundError" "credentials.json"))
           build_free fresh_token "{token: fresh}" fresh_creds
           eq_refl eq_refl eq_refl).
Defined.

Lemma token_file_changes_only_by_saving_fresh_credentials_witness :
  Auth.get_calendar_service parse_token refresh_ok consent_granted build_free
    stale_token
  = ({| Auth.token_json := Some "{token: fresh}";
        Auth.events := [Auth.ev_refresh; Auth.ev_write "{token: fresh}"] |},
     Return svc_free)
  ∧
  ∃ creds,
    Some "{token: fresh}" = Some (Auth.to_json creds) ∧
    Return svc_free = build_free creds ∧
    last [Auth.ev_refresh; Auth.ev_write "{token: fresh}"]
    = Some (Auth.ev_write (Auth.to_json creds)).
Proof.
  assert (Hcall : Auth.get_calendar_service parse_token refresh_ok
                    consent_granted build_free stale_token
                  = ({| Auth.token_json := Some "{token: fresh}";
                        Auth.events :=
                          [Auth.ev_refresh; Auth.ev_write "{token: fresh}"] |},
                     Return svc_free)) by reflexivity.
  split; [exact Hcall|].
  destruct (token_file_changes_only_by_saving_fresh_credentials
              parse_token refresh_ok consent_granted build_free _ _ _ Hcall)
    as (_ & Hchange & _).
  apply Hchange. discriminate.
Defined.

Lemma refresh_or_consent_flow_witness :
  Auth.get_calendar_service parse_token refresh_revoked consent_granted
    build_free stale_token
  = ({| Auth.token_json := Some "{token: stale}";
        Auth.events := [Auth.ev_refresh] |},
     Raise (OtherError "RefreshError" "invalid_grant"))
  ∧
  Auth.get_calendar_service parse_token refresh_revoked consent_granted
    build_free no_token
  = ({| Auth.token_json := Some "{token: fresh}";
        Auth.events :=
          [Auth.ev_consent_flow; Auth.ev_write "{token: fresh}"] |},
     Return svc_free).
Proof.
  split.
  - exact (proj1 (refresh_or_consent_flow parse_token refresh_revoked
                    consent_granted build_free stale_token)
             "{token: stale}" stale_creds
             (OtherError "RefreshError" "invalid_grant")
             eq_refl eq_refl eq_refl eq_refl eq_refl eq_refl).
  - exact (proj2 (refresh_or_consent_flow parse_token refresh_revoked
                    consent_granted build_free no_token)
             fresh_creds eq_refl (or_introl eq_refl)).
Defined.

Lemma second_call_reuses_saved_token_witness :
  let after_login :=
    {| Auth.token_json := Some "{token: fresh}";
       Auth.events := [Auth.ev_refresh; Auth.ev_write "{token: fresh}"] |} in
  Auth.get_calendar_service parse_token refresh_ok consent_granted build_free
    stale_token = (after_login, Return svc_free)
  ∧
  Auth.get_calendar_service parse_token refresh_ok consent_granted build_free
    after_login = (after_login, Return svc_free).
Proof.
  intros after_login.
  assert (Hfirst : Auth.get_calendar_service parse_token refresh_ok
                     consent_granted build_free stale_token
                   = (after_login, Return svc_free)) by reflexivity.
  split; [exact Hfirst|].
  apply (second_call_reuses_saved_token parse_token refresh_ok
           consent_granted build_free stale_token after_login svc_free).
  - intros c c' [= <-]. split; reflexivity.
  - intros c [= <-]. split; reflexivity.
  - exact Hfirst.
Defined.

Lemma last_chain_end_event_wins_witness :
  MainApi.last_chain_end (stream_of (messages checked_and_answered))
  = Some {[ "messages" := messages checked_and_answered ]}
  ∧
  MainApi.last_chain_end
    [ {| MainApi.event := "on_chain_start"; MainApi.data_output := None |} ]
  = None.
Proof.
  split.
  - refine (proj1 (last_chain_end_event_wins
                     (stream_of (messages checked_and_answered)))
              [ {| MainApi.event := "on_chain_start";
                   MainApi.data_output := None |};
                {| MainApi.event := "on_chain_end";
                   MainApi.data_output := Some {[ "messages" := [] ]} |} ]
              {| MainApi.event := "on_chain_end";
                 MainApi.data_output :=
                   Some {[ "messages" := messages checked_and_answered ]} |}
              [ {| MainApi.event := "on_chain_stream";
                   MainApi.data_output := None |} ]
              eq_refl eq_refl _).
    repeat constructor. discriminate.
  - apply (proj2 (last_chain_end_event_wins _)).
    repeat constructor. discriminate.
Defined.

Lemma chat_endpoint_answers_with_last_assistant_message_witness :
  MainApi.chat_endpoint string names_of agent_stream repr_plain hello
  = MainApi.Ok200
      {| MainApi.response := "Yes, you're free then!";
         MainApi.thread_id := "user-1";
         MainApi.tool_calls := MainApi.no_calls |}.
Proof.
  rewrite (chat_endpoint_answers_with_last_assistant_message
             string names_of agent_stream repr_plain hello
             (stream_of (messages checked_and_answered))
             {[ "messages" := messages checked_and_answered ]}
             [ HumanMessage
                 "Hey, I want to schedule a call for tomorrow morning.";
               response_of (wants [tc_check]);
               ToolMessage "call_1" (dumps_plain free_text) ]
             (response_of (says "Yes, you're free then!")) []).
  - reflexivity.
  - vm_compute. reflexivity.
  - vm_compute. reflexivity.
  - reflexivity.
  - reflexivity.
  - constructor.
Defined.

Lemma chat_endpoint_falls_back_without_assistant_message_witness :
  MainApi.chat_endpoint string names_of silent_stream repr_plain hello
  = MainApi.Ok200
      {| MainApi.response :=
           "The agent did not return a direct message. This might be a tool call.";
         MainApi.thread_id := "user-1";
         MainApi.tool_calls := MainApi.no_calls |}.
Proof.
  apply (chat_endpoint_falls_back_without_assistant_message
           string names_of silent_stream repr_plain hello
           (stream_of [HumanMessage (MainApi.req_message hello)]) eq_refl).
  intros state msgs Hfinal Hmsgs.
  change (Some {[ "messages" := [HumanMessage (MainApi.req_message hello)] ]}
          = Some state) in Hfinal.
  injection Hfinal as <-.
  rewrite lookup_singleton_eq in Hmsgs. injection Hmsgs as <-.
  repeat constructor.
Defined.

Lemma chat_endpoint_answers_with_final_reply_of_run_witness :
  ∃ m,
    last (messages checked_and_answered) = Some m ∧
    msg_type m = ai ∧
    additional_kwargs m !! "tool_calls" = None ∧
    MainApi.chat_endpoint string names_of agent_stream repr_plain hello
    = MainApi.Ok200
        {| MainApi.response := content m;
           MainApi.thread_id := "user-1";
           MainApi.tool_calls :=
             match names_of m with
             | c :: calls => MainApi.parsed_calls (c :: calls)
             | [] => MainApi.no_calls
             end |}.
Proof.
  apply (chat_endpoint_answers_with_final_reply_of_run
           string names_of agent_stream repr_plain
           (llm_once [tc_check]) exec_free dumps_plain hello
           (stream_of (messages checked_and_answered))
           {[ "messages" := messages checked_and_answered ]}
           5 first_turn checked_and_answered
           [N_call_model; N_call_tool; N_call_model]).
  - vm_compute. reflexivity.
  - vm_compute. reflexivity.
  - reflexivity.
  - vm_compute. reflexivity.
Defined.

Lemma user_id_is_created_once_witness :
  let st1 :=
    fst (fst (Frontend.run_script "user-1" post_ok is_ConnectionError
                is_RequestException (MainApi.str_exn repr_plain) (Some "hi")
                new_session)) in
  Frontend.user_id st1 = Some "user-1"
  ∧
  Frontend.user_id
    (fst (fst (Frontend.run_script "user-2" post_500 is_ConnectionError
                 is_RequestException
                 (MainApi.str_exn repr_plain) (Some "again") st1)))
  = Some "user-1".
Proof.
  intros st1. split.
  - exact (proj1 (user_id_is_created_once "user-1" post_ok
                    is_ConnectionError is_RequestException
                    (MainApi.str_exn repr_plain)
                    (Some "hi") new_session _ _ _ eq_refl)).
  - exact (proj1 (user_id_is_created_once "user-2" post_500
                    is_ConnectionError is_RequestException
                    (MainApi.str_exn repr_plain)
                    (Some "again") st1 _ _ _ eq_refl)).
Defined.

Lemma history_grows_by_the_exchange_witness :
  ∃ st' ui,
    Frontend.run_script "user-1" post_500 is_ConnectionError
      is_RequestException (MainApi.str_exn repr_plain) (Some "hi") new_session
    = (st', ui, Frontend.stopped) ∧
    Frontend.messages st'
    = Some [ {| Frontend.role := "user"; Frontend.entry_content := "hi" |} ].
Proof.
  eexists _, _. split; [reflexivity|].
  destruct (history_grows_by_the_exchange "user-1" post_500
              is_ConnectionError is_RequestException
              (MainApi.str_exn repr_plain)
              (Some "hi") new_session _ _ _ eq_refl)
    as (added & shown & Hm & _ & Hadded & _).
  rewrite Hm, Hadded. reflexivity.
Defined.

Lemma thread_id_comes_back_as_user_id_witness :
  let text := "Hey, I want to schedule a call for tomorrow morning." in
  ∃ st' ui,
    Frontend.run_script "user-1" post_ok is_ConnectionError
      is_RequestException (MainApi.str_exn repr_plain) (Some text) new_session
    = (st', ui, Frontend.finished) ∧
    Frontend.thread_id st' = Some (Frontend.user_id st') ∧
    last (default [] (Frontend.messages st'))
    = Some {| Frontend.role := "assistant";
              Frontend.entry_content := "Yes, you're free then!" |}.
Proof.
  intros text. eexists _, _. split; [reflexivity|].
  refine (proj2 (thread_id_comes_back_as_user_id "user-1" post_ok
                   is_ConnectionError is_RequestException
                   (MainApi.str_exn repr_plain)
                   string names_of agent_stream repr_plain text new_session
                   _ _ _
                   {| MainApi.response := "Yes, you're free then!";
                      MainApi.thread_id := "user-1";
                      MainApi.tool_calls := MainApi.no_calls |}
                   answer_json _ _ eq_refl _ _ eq_refl)).
  - discriminate.
  - vm_compute. reflexivity.
  - vm_compute. reflexivity.
  - vm_compute. reflexivity.
Defined.

End MoreWitnesses.

(** ** Requests the graph does not answer *)

Section Unanswered.
Import Agent Transcript Samples MoreSamples.

(** The caller's transcript already ends on an assistant message with a
    pending call.  The graph enters at the decision node, so that call is
    not executed: the run returns with the request unanswered, the
    oracle's reply right behind it. *)
Lemma pending_request_of_the_input_stays_unanswered :
  messages (asked [tc_check])
  = [ HumanMessage "Hey, I want to schedule a call for tomorrow morning.";
      response_of (wants [tc_check]) ] ∧
  requested_actions (response_of (wants [tc_check])) = [tc_check] ∧
  final_messages
    (invoke (llm_once [tc_check]) exec_free dumps_plain 5 (asked [tc_check]))
  = Some [ HumanMessage
             "Hey, I want to schedule a call for tomorrow morning.";
           response_of (wants [tc_check]);
           response_of (says "Yes, you're free then!") ] ∧
  option_map (map msg_type)
    (final_messages
       (invoke (llm_once [tc_check]) exec_free dumps_plain 5
          (asked [tc_check])))
  = Some [human; ai; ai].
Proof. repeat split; vm_compute; reflexivity. Qed.

(** C3. A batch that names the unregistered ["delete_event"] next to the
    registered ["get_current_datetime"]: the executor, handed the list of
    line 114, raises on the first request, and [call_tool], which has no
    handler, raises with it and returns no result message; a batch of
    registered names fares the same.  With an executor that answers each
    request, the unknown name by a text, the same [call_tool] returns the
    two result messages, the failure text first. *)
Theorem call_tool_raises_on_the_list_it_passes :
  bool_decide (tc_name tc_delete ∈ tools) = false ∧
  bool_decide (tc_name tc_now ∈ tools) = true ∧
  call_tool exec_on_list dumps_plain (asked [tc_delete; tc_now])
  = Raise (OtherError "AttributeError"
             "'list' object has no attribute 'tool'") ∧
  call_tool exec_on_list dumps_plain (asked [tc_now])
  = Raise (OtherError "AttributeError"
             "'list' object has no attribute 'tool'") ∧
  call_tool exec_lenient dumps_plain (asked [tc_delete; tc_now])
  = Return (messages_and_flag
              [ ToolMessage "call_3"
                  (dumps_plain "delete_event is not a valid tool");
                ToolMessage "call_2" (dumps_plain "2025-06-28T09:00:00") ]
              None).
Proof. repeat split; vm_compute; reflexivity. Qed.

End Unanswered.
